(** * Document Q&A API: a shallow embedding and its verified properties

    The development follows the layout of the Python sources:

    - [PyStr]      the few operations on Python [str] the code relies on
                   ([len], [s[:k]], [str.split()], ['%x' % n]);
    - [Config]     [src/config.py], the [Settings] record;
    - [Models]     [src/models.py], the response models and the validation
                   that constructing them performs;
    - [Store]      [src/document_store.py], the in-memory [DocumentStore];
    - [QA]         [src/qa_service.py], context reduction, prompt building
                   and the call of the language model;
    - [Api]        [src/main.py], the request handlers.

    Python [int] is [Z]; a Python [str] is a [string], its characters being
    the code points below 256; a [dict] keyed by strings is a [gmap string].
    Logging is not modelled: no logging call reads or writes the store. *)

From Stdlib Require Import ZArith NArith Ascii String Floats.
From stdpp Require Import gmap strings list fin_maps.

Open Scope Z_scope.

(** ** Python strings *)
Module PyStr.

(** [len(s)]. *)
Definition len (s : string) : Z := Z.of_nat (String.length s).

(** [s[:k]]: a negative bound counts from the end, and a bound outside the
    string is clipped to it. *)
Definition slice_to (s : string) (k : Z) : string :=
  let n := len s in
  let stop := if k <? 0 then Z.max 0 (n + k) else Z.min k n in
  String.substring 0 (Z.to_nat stop) s.

(** The line feed of the ["\n"] escape. *)
Definition LF : string := String (ascii_of_nat 10) EmptyString.

(** [c.isspace()] for a code point below 256: TAB, LF, VT, FF, CR, the four
    separators FS, GS, RS and US, the space, NEL and the no-break space. *)
Definition isspace (c : ascii) : bool :=
  let n := N_of_ascii c in
  ((9 <=? n) && (n <=? 13) || (28 <=? n) && (n <=? 32)
   || (n =? 133) || (n =? 160))%N.

(** [s.split()] scans the string once; [word] is the word being read, empty
    between two words. *)
Fixpoint split_from (s : string) (word : string) : list string :=
  match s with
  | EmptyString =>
      match word with EmptyString => [] | _ => [word] end
  | String c rest =>
      if isspace c then
        match word with
        | EmptyString => split_from rest EmptyString
        | _ => word :: split_from rest EmptyString
        end
      else split_from rest (String.append word (String c EmptyString))
  end.

(** [s.split()]: the maximal runs of characters that are not whitespace. *)
Definition split (s : string) : list string := split_from s EmptyString.

(** Whether some character of [s] is whitespace. *)
Fixpoint has_space (s : string) : bool :=
  match s with
  | EmptyString => false
  | String c rest => isspace c || has_space rest
  end.

(** One lowercase hexadecimal digit. *)
Definition hex_digit (d : N) : ascii :=
  if (d <? 10)%N then ascii_of_N (48 + d) else ascii_of_N (87 + d).

(** The [k] low hexadecimal digits of [n], most significant first, in front
    of [acc]. *)
Fixpoint hex_digits (k : nat) (n : N) (acc : string) : string :=
  match k with
  | O => acc
  | S k' => hex_digits k' (N.shiftr n 4) (String (hex_digit (N.land n 15)) acc)
  end.

(** ['%032x' % n] for [n] below [2^128]. *)
Definition hex32 (n : N) : string := hex_digits 32 n EmptyString.

(** Concatenation of a list of strings, as adjacent f-string pieces are. *)
Definition concat (pieces : list string) : string :=
  fold_right String.append EmptyString pieces.

End PyStr.

(** ** [src/config.py] *)
Module Config.

Record Settings := {
  app_name : string;
  app_version : string;
  openai_model : string;
  max_tokens : Z;
  max_document_length : Z;
  max_documents : Z;
  max_question_length : Z;
  context_max_chars : Z
}.

(** The values [Settings()] takes when the environment overrides nothing. *)
Definition settings : Settings := {|
  app_name := "Document Q&A API";
  app_version := "1.0.0";
  openai_model := "gpt-4o-mini";
  max_tokens := 1500;
  max_document_length := 50000;
  max_documents := 100;
  max_question_length := 1000;
  context_max_chars := 15000
|}.

End Config.

(** ** Python values, exceptions and effects *)
Module Py.

(** The values [json] decoding produces: [None], [bool], [int], [float],
    [str], [list] and [dict] with string keys. *)
#[warnings="-register-all"]
Inductive pyval :=
| PNone
| PBool (b : bool)
| PInt (z : Z)
| PFloat (f : float)
| PStr (s : string)
| PList (l : list pyval)
| PDict (d : gmap string pyval).

(** The exception classes the handlers tell apart. [ValidationError] is
    pydantic's, a subclass of [ValueError]; [Exception] stands for every
    class that is not a [ValueError]. *)
Inductive exn := ValueError | ValidationError | Exception.

(** [isinstance(e, ValueError)], the test of [except ValueError]. *)
Definition is_ValueError (e : exn) : bool :=
  match e with
  | ValueError | ValidationError => true
  | Exception => false
  end.

(** A computation that returns a value or raises. *)
Inductive raises (A : Type) :=
| Return (a : A)
| Raise (e : exn).
Arguments Return {A} a.
Arguments Raise {A} e.

Definition bind {A B} (c : raises A) (k : A -> raises B) : raises B :=
  match c with
  | Return a => k a
  | Raise e => Raise e
  end.

(** [d.get(key, default)]. *)
Definition dict_get {V} (d : gmap string V) (key : string) (dflt : V) : V :=
  match d !! key with
  | Some v => v
  | None => dflt
  end.

End Py.

Notation "'let*' x ':=' c 'in' k" := (Py.bind c (fun x => k))
  (at level 10, x name, c at level 99, k at level 200).

(** ** [src/models.py] *)
Module Models.
Import Py.

(** [class Confidence(str, Enum)]. *)
Inductive Confidence := HIGH | MEDIUM | LOW.

Definition Confidence_value (c : Confidence) : string :=
  match c with
  | HIGH => "high"
  | MEDIUM => "medium"
  | LOW => "low"
  end.

(** [Confidence(v)]: the member whose value equals [v]; a value of no member
    raises [ValueError] (the class defines no [_missing_] hook). *)
Definition Confidence_call (v : pyval) : raises Confidence :=
  match v with
  | PStr s =>
      if String.eqb s (Confidence_value HIGH) then Return HIGH
      else if String.eqb s (Confidence_value MEDIUM) then Return MEDIUM
      else if String.eqb s (Confidence_value LOW) then Return LOW
      else Raise ValueError
  | _ => Raise ValueError
  end.

(** Validation of a [str] field: only a [str] is accepted. *)
Definition validate_str (v : pyval) : raises string :=
  match v with
  | PStr s => Return s
  | _ => Raise ValidationError
  end.

Definition ascii_lower (c : ascii) : ascii :=
  let n := N_of_ascii c in
  if ((65 <=? n) && (n <=? 90))%N then ascii_of_N (n + 32) else c.

Fixpoint lower (s : string) : string :=
  match s with
  | EmptyString => EmptyString
  | String c rest => String (ascii_lower c) (lower rest)
  end.

Definition str_in (s : string) (l : list string) : bool :=
  existsb (String.eqb s) l.

(** Validation of a [bool] field outside strict mode: a [bool]; the numbers
    0 and 1; or one of the strings below, letter case ignored. *)
Definition validate_bool (v : pyval) : raises bool :=
  match v with
  | PBool b => Return b
  | PInt z =>
      if z =? 0 then Return false
      else if z =? 1 then Return true
      else Raise ValidationError
  | PFloat f =>
      if PrimFloat.eqb f 0%float then Return false
      else if PrimFloat.eqb f 1%float then Return true
      else Raise ValidationError
  | PStr s =>
      if str_in (lower s) ["0"; "f"; "n"; "no"; "off"; "false"]%string
      then Return false
      else if str_in (lower s) ["1"; "t"; "y"; "on"; "yes"; "true"]%string
      then Return true
      else Raise ValidationError
  | _ => Raise ValidationError
  end.

(** Validation of the items of a [List[str]] field. *)
Fixpoint validate_items (l : list pyval) : raises (list string) :=
  match l with
  | [] => Return []
  | v :: rest =>
      let* s := validate_str v in
      let* ss := validate_items rest in
      Return (s :: ss)
  end.

(** Validation of a [List[str]] field: a [list] whose items are all [str]. *)
Definition validate_list_str (v : pyval) : raises (list string) :=
  match v with
  | PList l => validate_items l
  | _ => Raise ValidationError
  end.

Record DocumentUploadRequest := {
  upload_content : string;
  upload_title : string
}.

Record DocumentMetadata := {
  meta_id : string;
  meta_title : string;
  meta_word_count : Z;
  meta_character_count : Z;
  meta_created_at : string
}.

Record DocumentDetail := {
  detail_id : string;
  detail_title : string;
  detail_content : string;
  detail_word_count : Z;
  detail_character_count : Z;
  detail_created_at : string
}.

Record DocumentListResponse := {
  documents : list DocumentMetadata;
  total_count : Z
}.

Record QuestionRequest := { question_text : string }.

Record AnswerResponse := {
  answer : string;
  confidence : Confidence;
  relevant_quotes : list string;
  not_found : bool;
  document_title : string;
  question : string;
  model_used : string;
  processing_time_ms : float
}.

(** [AnswerResponse(answer=..., confidence=..., ...)]: the fields are
    validated in the order the class declares them and any failure raises
    [ValidationError]. The confidence passed is already a member, and the
    last four arguments are of their declared types at the only call. *)
Definition AnswerResponse_init
    (answer_v : pyval) (confidence_v : Confidence)
    (relevant_quotes_v not_found_v : pyval)
    (document_title_v question_v model_used_v : string)
    (processing_time_ms_v : float) : raises AnswerResponse :=
  let* a := validate_str answer_v in
  let* q := validate_list_str relevant_quotes_v in
  let* n := validate_bool not_found_v in
  Return {| answer := a; confidence := confidence_v;
            relevant_quotes := q; not_found := n;
            document_title := document_title_v; question := question_v;
            model_used := model_used_v;
            processing_time_ms := processing_time_ms_v |}.

Record HealthResponse := {
  status : string;
  version : string;
  documents_stored : Z;
  timestamp : string
}.

End Models.

(** ** [src/document_store.py] *)
Module Store.

(** The [dict] kept for one document; its five keys are fixed by [add]. *)
Record Document := {
  content : string;
  title : string;
  word_count : Z;
  character_count : Z;
  created_at : string
}.

(** The [dict] [list_all] builds for one document. *)
Record Summary := {
  summary_id : string;
  summary_title : string;
  summary_word_count : Z;
  summary_character_count : Z;
  summary_created_at : string
}.

Record DocumentStore := { _documents : gmap string Document }.

(** [DocumentStore()]. *)
Definition init : DocumentStore := {| _documents := ∅ |}.

(** [uuid.uuid4()] as a 128-bit integer: the sixteen random bytes [rnd] with
    the variant bits set to RFC 4122 and the version bits to 4. *)
Definition uuid4 (rnd : N) : N :=
  let i := N.land rnd (N.ones 128) in
  let i := N.ldiff i (N.shiftl 0xc000 48) in
  let i := N.lor i (N.shiftl 0x8000 48) in
  let i := N.ldiff i (N.shiftl 0xf000 64) in
  N.lor i (N.shiftl 4 76).

(** [str(u)] for a UUID: the 32 hexadecimal digits in groups of 8, 4, 4, 4
    and 12. *)
Definition uuid_str (u : N) : string :=
  let hex := PyStr.hex32 u in
  PyStr.concat
    [String.substring 0 8 hex; "-"; String.substring 8 4 hex; "-";
     String.substring 12 4 hex; "-"; String.substring 16 4 hex; "-";
     String.substring 20 12 hex]%string.

(** A method of the store maps the store before the call to the value
    returned and the store after it. The random bytes [uuid4] draws and the
    clock reading are inputs of [add]. *)
Definition add (content_v title_v : string) (rnd : N) (now : string)
    (self : DocumentStore) : string * DocumentStore :=
  let doc_id := PyStr.slice_to (uuid_str (uuid4 rnd)) 8 in
  (doc_id,
   {| _documents :=
        <[doc_id := {| content := content_v;
                       title := title_v;
                       word_count := Z.of_nat (length (PyStr.split content_v));
                       character_count := PyStr.len content_v;
                       created_at := now |}]> (_documents self) |}).

Definition get (doc_id : string) (self : DocumentStore)
    : option Document * DocumentStore :=
  (_documents self !! doc_id, self).

Definition get_content (doc_id : string) (self : DocumentStore)
    : option string * DocumentStore :=
  (match _documents self !! doc_id with
   | Some doc => Some (content doc)
   | None => None
   end, self).

(** The entries are those of the [dict]; Python lists them in insertion
    order, the model in the order of the keys. *)
Definition list_all (self : DocumentStore) : list Summary * DocumentStore :=
  (map (fun entry : string * Document =>
          {| summary_id := fst entry;
             summary_title := title (snd entry);
             summary_word_count := word_count (snd entry);
             summary_character_count := character_count (snd entry);
             summary_created_at := created_at (snd entry) |})
       (map_to_list (_documents self)), self).

Definition delete (doc_id : string) (self : DocumentStore)
    : bool * DocumentStore :=
  match _documents self !! doc_id with
  | Some _ => (true, {| _documents := base.delete doc_id (_documents self) |})
  | None => (false, self)
  end.

Definition count (self : DocumentStore) : Z * DocumentStore :=
  (Z.of_nat (size (_documents self)), self).

(** A call of one of the six methods, with its arguments. *)
Inductive call :=
| Add (content_v title_v : string) (rnd : N) (now : string)
| Get (doc_id : string)
| GetContent (doc_id : string)
| ListAll
| Delete (doc_id : string)
| Count.

(** The store after a call. *)
Definition after (c : call) (self : DocumentStore) : DocumentStore :=
  match c with
  | Add content_v title_v rnd now => snd (add content_v title_v rnd now self)
  | Get doc_id => snd (get doc_id self)
  | GetContent doc_id => snd (get_content doc_id self)
  | ListAll => snd (list_all self)
  | Delete doc_id => snd (delete doc_id self)
  | Count => snd (count self)
  end.

(** The store after a sequence of calls, the first call first. *)
Definition run (calls : list call) (self : DocumentStore) : DocumentStore :=
  fold_left (fun s c => after c s) calls self.

(** The calls that only read: every method but [add] and [delete]. *)
Definition reads_only (c : call) : bool :=
  match c with
  | Add _ _ _ _ | Delete _ => false
  | Get _ | GetContent _ | ListAll | Count => true
  end.

Definition is_add (c : call) : bool :=
  match c with
  | Add _ _ _ _ => true
  | _ => false
  end.

(** The stores a sequence of calls leads to from the empty one. *)
Definition reachable (self : DocumentStore) : Prop :=
  exists calls, self = run calls init.

(** The two derived fields of a document agree with its content. *)
Definition derived_ok (doc : Document) : Prop :=
  character_count doc = PyStr.len (content doc)
  /\ word_count doc = Z.of_nat (length (PyStr.split (content doc))).

(** Every document of the store has derived fields that agree with its
    content. *)
Definition consistent (self : DocumentStore) : Prop :=
  forall doc_id doc, _documents self !! doc_id = Some doc -> derived_ok doc.

End Store.

(** ** The language-model client *)
Module Llm.
Import Py.

(** [src/llm_service.py], which [qa_service] imports [llm_service] from, is
    not among the sources, so the call
    [llm_service.generate_json(prompt=..., system_message=..., temperature=...)]
    is a parameter: given the prompt, the system message and the
    temperature it returns the mapping the model's output decodes to, or
    raises. An output that does not decode is the MalformedResponse of the
    specification; it reaches the handler as a [ValueError], the class JSON
    decoding raises and the one the handler reports as 422. *)
Definition client : Type :=
  string -> string -> float -> raises (gmap string pyval).

End Llm.

(** ** [src/qa_service.py] *)
Module QA.
Import Py.

Definition LF : string := PyStr.LF.

(** The double quote. *)
Definition DQ : string := String (ascii_of_nat 34) EmptyString.

(** The lines of a text, joined by line feeds. *)
Fixpoint join_lines (lines : list string) : string :=
  match lines with
  | [] => EmptyString
  | [l] => l
  | l :: rest => String.append l (String.append LF (join_lines rest))
  end.

Definition QA_SYSTEM_PROMPT : string :=
  join_lines
    ["You are a precise document analyst working in a";
     "financial services environment. You answer questions ONLY based on";
     "the document provided. You prioritize accuracy over helpfulness -";
     PyStr.concat ["it is better to say "; DQ; "not found"; DQ;
                   " than to guess."];
     "";
     "STRICT RULES:";
     "1. ONLY use information explicitly stated in the document";
     "2. If the answer is NOT in the document, say so clearly";
     "3. Include short relevant quotes from the document to support your answer";
     "4. If the question is ambiguous, state what you found and note the ambiguity";
     "5. NEVER use external knowledge - only what is in the document";
     "";
     "RESPONSE FORMAT - Return ONLY valid JSON with this structure:";
     "{";
     PyStr.concat ["  "; DQ; "answer"; DQ; ": "; DQ;
                   "Your answer based on the document"; DQ; ","];
     PyStr.concat ["  "; DQ; "confidence"; DQ; ": "; DQ;
                   "high or medium or low"; DQ; ","];
     PyStr.concat ["  "; DQ; "relevant_quotes"; DQ; ": ["; DQ;
                   "short quote 1 from document"; DQ; ", "; DQ;
                   "short quote 2"; DQ; "],"];
     PyStr.concat ["  "; DQ; "not_found"; DQ; ": false"];
     "}";
     "";
     "If the information is NOT in the document:";
     "{";
     PyStr.concat ["  "; DQ; "answer"; DQ; ": "; DQ;
                   "This information is not present in the provided document.";
                   DQ; ","];
     PyStr.concat ["  "; DQ; "confidence"; DQ; ": "; DQ; "high"; DQ; ","];
     PyStr.concat ["  "; DQ; "relevant_quotes"; DQ; ": [],"];
     PyStr.concat ["  "; DQ; "not_found"; DQ; ": true"];
     "}";
     "";
     "CONFIDENCE GUIDELINES:";
     "- high: The answer is directly and clearly stated in the document";
     "- medium: The answer requires some interpretation or inference";
     "- low: The document only partially addresses the question"]%string.

(** The text appended to a truncated document: a blank line, then the
    marker. *)
Definition truncation_marker : string :=
  PyStr.concat [LF; LF; "[... Document truncated for processing ...]"]%string.

(** Context window management, the first step of [answer_question]: a
    document longer than [max_chars] is cut to [document_content[:max_chars]]
    and the marker is appended. *)
Definition reduce_context (max_chars : Z) (document_content : string)
    : string :=
  if PyStr.len document_content >? max_chars
  then String.append (PyStr.slice_to document_content max_chars)
                     truncation_marker
  else document_content.

(** The prompt, the second step of [answer_question]: seven adjacent
    f-strings, concatenated. *)
Definition build_prompt (document_title document_content question : string)
    : string :=
  PyStr.concat
    [ PyStr.concat ["=== DOCUMENT TITLE: "; document_title; " ==="; LF; LF];
      PyStr.concat [document_content; LF; LF];
      PyStr.concat ["=== END OF DOCUMENT ==="; LF; LF];
      PyStr.concat ["=== QUESTION ==="; LF];
      PyStr.concat [question; LF];
      PyStr.concat ["=== END OF QUESTION ==="; LF; LF];
      "Answer the question using ONLY the document above." ]%string.

(** The sampling temperature of the call, [temperature=0.1]. *)
#[warnings="-inexact-float"]
Definition temperature : float := 0.1%float.

(** [QAService.answer_question]. *)
Definition answer_question (cfg : Config.Settings) (generate_json : Llm.client)
    (document_content question document_title : string)
    : raises (gmap string pyval) :=
  let max_chars := Config.context_max_chars cfg in
  let document_content := reduce_context max_chars document_content in
  let prompt := build_prompt document_title document_content question in
  let* result := generate_json prompt QA_SYSTEM_PROMPT temperature in
  Return result.

End QA.

(** ** [src/main.py] *)
Module Api.
Import Py.

(** What a handler answers: a body sent with a status code, or an
    [HTTPException] with its status code (the [detail] text is left out). *)
Inductive response (A : Type) :=
| Respond (status_code : Z) (body : A)
| HTTPException (status_code : Z).
Arguments Respond {A} status_code body.
Arguments HTTPException {A} status_code.

(** [GET /health]. *)
Definition health_check (cfg : Config.Settings) (now : string)
    (store : Store.DocumentStore)
    : response Models.HealthResponse * Store.DocumentStore :=
  let (n, store) := Store.count store in
  (Respond 200 {| Models.status := "healthy";
                  Models.version := Config.app_version cfg;
                  Models.documents_stored := n;
                  Models.timestamp := now |}, store).

(** [POST /documents]. The body has passed the validation of
    [DocumentUploadRequest] when the handler runs. Subscripting [None]
    raises, and an exception no handler catches is answered with 500. *)
Definition upload_document (cfg : Config.Settings)
    (request : Models.DocumentUploadRequest) (rnd : N) (now : string)
    (store : Store.DocumentStore)
    : response Models.DocumentMetadata * Store.DocumentStore :=
  let (n, store) := Store.count store in
  if n >=? Config.max_documents cfg then (HTTPException 400, store)
  else
    let (doc_id, store) :=
      Store.add (Models.upload_content request) (Models.upload_title request)
                rnd now store in
    let (doc, store) := Store.get doc_id store in
    match doc with
    | Some doc =>
        (Respond 201 {| Models.meta_id := doc_id;
                        Models.meta_title := Store.title doc;
                        Models.meta_word_count := Store.word_count doc;
                        Models.meta_character_count := Store.character_count doc;
                        Models.meta_created_at := Store.created_at doc |},
         store)
    | None => (HTTPException 500, store)
    end.

(** [GET /documents]. *)
Definition list_documents (store : Store.DocumentStore)
    : response Models.DocumentListResponse * Store.DocumentStore :=
  let (docs, store) := Store.list_all store in
  (Respond 200
     {| Models.documents :=
          map (fun d => {| Models.meta_id := Store.summary_id d;
                           Models.meta_title := Store.summary_title d;
                           Models.meta_word_count := Store.summary_word_count d;
                           Models.meta_character_count :=
                             Store.summary_character_count d;
                           Models.meta_created_at :=
                             Store.summary_created_at d |}) docs;
        Models.total_count := Z.of_nat (length docs) |}, store).

(** [GET /documents/{doc_id}]. *)
Definition get_document (doc_id : string) (store : Store.DocumentStore)
    : response Models.DocumentDetail * Store.DocumentStore :=
  let (doc, store) := Store.get doc_id store in
  match doc with
  | None => (HTTPException 404, store)
  | Some doc =>
      (Respond 200 {| Models.detail_id := doc_id;
                      Models.detail_title := Store.title doc;
                      Models.detail_content := Store.content doc;
                      Models.detail_word_count := Store.word_count doc;
                      Models.detail_character_count :=
                        Store.character_count doc;
                      Models.detail_created_at := Store.created_at doc |},
       store)
  end.

(** [DELETE /documents/{doc_id}]; the body is the confirmation message. *)
Definition delete_document (doc_id : string) (store : Store.DocumentStore)
    : response string * Store.DocumentStore :=
  let (deleted, store) := Store.delete doc_id store in
  if negb deleted then (HTTPException 404, store)
  else (Respond 200
          (PyStr.concat ["Document "; doc_id; " deleted successfully"]%string),
        store).

(** Response interpretation, lines 190 to 199 of [ask_question]: the four
    fields are read from the model's mapping with [dict.get] and a default,
    the confidence goes through [Confidence(...)], and [AnswerResponse]
    validates the rest. The arguments are evaluated from left to right. *)
Definition interpret (cfg : Config.Settings) (doc : Store.Document)
    (request : Models.QuestionRequest) (elapsed_ms : float)
    (result : gmap string pyval) : raises Models.AnswerResponse :=
  let answer_v := dict_get result "answer" (PStr "Unable to generate answer") in
  let* confidence_v :=
    Models.Confidence_call (dict_get result "confidence" (PStr "low")) in
  let relevant_quotes_v := dict_get result "relevant_quotes" (PList []) in
  let not_found_v := dict_get result "not_found" (PBool false) in
  Models.AnswerResponse_init answer_v confidence_v relevant_quotes_v
    not_found_v (Store.title doc) (Models.question_text request)
    (Config.openai_model cfg) elapsed_ms.

(** The prompt [answer_question] builds for a stored document and a
    question: the title, the reduced content and the question text. *)
Definition prompt_for (cfg : Config.Settings) (doc : Store.Document)
    (request : Models.QuestionRequest) : string :=
  QA.build_prompt (Store.title doc)
    (QA.reduce_context (Config.context_max_chars cfg) (Store.content doc))
    (Models.question_text request).

(** The [try] block of [ask_question]. *)
Definition ask_body (cfg : Config.Settings) (generate_json : Llm.client)
    (doc : Store.Document) (request : Models.QuestionRequest)
    (elapsed_ms : float) : raises Models.AnswerResponse :=
  let* result :=
    QA.answer_question cfg generate_json (Store.content doc)
      (Models.question_text request) (Store.title doc) in
  interpret cfg doc request elapsed_ms result.

(** [POST /documents/{doc_id}/ask]. The body has passed the validation of
    [QuestionRequest] when the handler runs. The time the call took, rounded
    to two decimals, is the input [elapsed_ms]. *)
Definition ask_question (cfg : Config.Settings) (generate_json : Llm.client)
    (doc_id : string) (request : Models.QuestionRequest) (elapsed_ms : float)
    (store : Store.DocumentStore)
    : response Models.AnswerResponse * Store.DocumentStore :=
  let (doc, store) := Store.get doc_id store in
  match doc with
  | None => (HTTPException 404, store)
  | Some doc =>
      match ask_body cfg generate_json doc request elapsed_ms with
      | Return r => (Respond 200 r, store)
      | Raise e =>
          if is_ValueError e then (HTTPException 422, store)
          else (HTTPException 500, store)
      end
  end.

(** The value a field of the answer takes from the model's mapping: the
    default when the key is absent, what validation makes of the value when
    it is present. *)
Definition field_value {A} (result : gmap string pyval) (key : string)
    (dflt : A) (validate : pyval -> raises A) : raises A :=
  match result !! key with
  | None => Return dflt
  | Some v => validate v
  end.

(** A mapping has a rejected field when a key that is present holds a value
    its field does not accept: a confidence that is not the value of a
    member, an answer that is not a [str], quotes that are not a [list] of
    [str], or a flag that validation does not turn into a [bool]. *)
Definition rejected (result : gmap string pyval) : Prop :=
  (exists v, result !! "confidence" = Some v
             /\ forall c, v <> PStr (Models.Confidence_value c))
  \/ (exists v, result !! "answer" = Some v /\ forall s, v <> PStr s)
  \/ (exists v, result !! "relevant_quotes" = Some v
                /\ forall l, v <> PList (PStr <$> l))
  \/ (exists v, result !! "not_found" = Some v
                /\ forall b, Models.validate_bool v <> Return b).

End Api.

(** ** Sample data *)
Module Sample.
Import Py.

(** A store holding one document, uploaded when the random bytes are all
    zero; its id is ["00000000"]. *)
Definition store : Store.DocumentStore :=
  snd (Store.add "Revenue grew by ten percent." "Report" 0
         "2025-01-01T00:00:00" Store.init).

Definition doc_id : string := "00000000".

Definition doc : Store.Document :=
  {| Store.content := "Revenue grew by ten percent.";
     Store.title := "Report";
     Store.word_count := 5;
     Store.character_count := 28;
     Store.created_at := "2025-01-01T00:00:00" |}.

Definition request : Models.QuestionRequest :=
  {| Models.question_text := "How much did revenue grow?" |}.

(** A client whose output always decodes to the mapping [m]. *)
Definition replies (m : gmap string pyval) : Llm.client :=
  fun _ _ _ => Return m.

(** The configuration with room for a single document. *)
Definition one_document : Config.Settings :=
  {| Config.app_name := Config.app_name Config.settings;
     Config.app_version := Config.app_version Config.settings;
     Config.openai_model := Config.openai_model Config.settings;
     Config.max_tokens := Config.max_tokens Config.settings;
     Config.max_document_length := Config.max_document_length Config.settings;
     Config.max_documents := 1;
     Config.max_question_length := Config.max_question_length Config.settings;
     Config.context_max_chars := Config.context_max_chars Config.settings |}.

End Sample.

(** ** Request bodies *)
Module Requests.
Import Py.

(** Validation of a [str] field declared with [Field(min_length=...,
    max_length=...)]: only a [str] is accepted, and its length in characters
    must lie within the bounds that are given. *)
Definition validate_str_bounded (min_length max_length : option Z)
    (v : pyval) : raises string :=
  match v with
  | PStr s =>
      let long_enough :=
        match min_length with
        | Some lo => lo <=? PyStr.len s
        | None => true
        end in
      let short_enough :=
        match max_length with
        | Some hi => PyStr.len s <=? hi
        | None => true
        end in
      if long_enough && short_enough then Return s
      else Raise ValidationError
  | _ => Raise ValidationError
  end.

(** A required field: a missing key is a validation error. *)
Definition required {A} (d : gmap string pyval) (key : string)
    (validate : pyval -> raises A) : raises A :=
  match d !! key with
  | Some v => validate v
  | None => Raise ValidationError
  end.

(** A field with a default: a missing key takes the default, which is not
    validated. *)
Definition optional {A} (d : gmap string pyval) (key : string) (dflt : A)
    (validate : pyval -> raises A) : raises A :=
  match d !! key with
  | Some v => validate v
  | None => Return dflt
  end.

(** Validation of a JSON body against [DocumentUploadRequest]: the body is
    an object, [content] is required and has 10 to 50000 characters, [title]
    defaults to ["Untitled Document"] and has at most 200 characters. Keys
    the class does not declare are ignored. *)
Definition DocumentUploadRequest_validate (body : pyval)
    : raises Models.DocumentUploadRequest :=
  match body with
  | PDict d =>
      let* content_v :=
        required d "content" (validate_str_bounded (Some 10) (Some 50000)) in
      let* title_v :=
        optional d "title" "Untitled Document"%string
          (validate_str_bounded None (Some 200)) in
      Return {| Models.upload_content := content_v;
                Models.upload_title := title_v |}
  | _ => Raise ValidationError
  end.

(** Validation of a JSON body against [QuestionRequest]: [question] is
    required and has 5 to 1000 characters. *)
Definition QuestionRequest_validate (body : pyval)
    : raises Models.QuestionRequest :=
  match body with
  | PDict d =>
      let* question_v :=
        required d "question" (validate_str_bounded (Some 5) (Some 1000)) in
      Return {| Models.question_text := question_v |}
  | _ => Raise ValidationError
  end.

End Requests.

(** ** The routes *)
Module Http.
Import Py.

(** What a route answers: what its handler answers, or the 422 the
    framework sends when the body does not validate against the model the
    handler declares for it; the handler does not run then. *)
Inductive reply (A : Type) :=
| Handled (r : Api.response A)
| Unprocessable.
Arguments Handled {A} r.
Arguments Unprocessable {A}.

Definition status {A} (r : reply A) : Z :=
  match r with
  | Handled (Api.Respond code _) => code
  | Handled (Api.HTTPException code) => code
  | Unprocessable => 422
  end.

(** [POST /documents] with a JSON body. *)
Definition post_documents (cfg : Config.Settings) (body : pyval) (rnd : N)
    (now : string) (store : Store.DocumentStore)
    : reply Models.DocumentMetadata * Store.DocumentStore :=
  match Requests.DocumentUploadRequest_validate body with
  | Return request =>
      let (r, store) := Api.upload_document cfg request rnd now store in
      (Handled r, store)
  | Raise _ => (Unprocessable, store)
  end.

(** [POST /documents/{doc_id}/ask] with a JSON body. *)
Definition post_ask (cfg : Config.Settings) (generate_json : Llm.client)
    (doc_id : string) (body : pyval) (elapsed_ms : float)
    (store : Store.DocumentStore)
    : reply Models.AnswerResponse * Store.DocumentStore :=
  match Requests.QuestionRequest_validate body with
  | Return request =>
      let (r, store) :=
        Api.ask_question cfg generate_json doc_id request elapsed_ms store in
      (Handled r, store)
  | Raise _ => (Unprocessable, store)
  end.

(** One request to the service, with the inputs the handler draws from its
    environment: the clock, the random bytes, the time the model call took
    and the way the model behaves during the request. *)
Inductive request :=
| GetHealth (now : string)
| PostDocuments (body : pyval) (rnd : N) (now : string)
| GetDocuments
| GetDocument (doc_id : string)
| DeleteDocument (doc_id : string)
| PostAsk (doc_id : string) (body : pyval) (elapsed_ms : float)
    (generate_json : Llm.client).

(** The requests whose handlers call [add] or [delete]. *)
Definition writes (r : request) : bool :=
  match r with
  | PostDocuments _ _ _ | DeleteDocument _ => true
  | _ => false
  end.

(** The status code a request is answered with and the store after it. *)
Definition serve (cfg : Config.Settings) (r : request)
    (store : Store.DocumentStore) : Z * Store.DocumentStore :=
  match r with
  | GetHealth now =>
      let (a, store) := Api.health_check cfg now store in
      (status (Handled a), store)
  | PostDocuments body rnd now =>
      let (a, store) := post_documents cfg body rnd now store in
      (status a, store)
  | GetDocuments =>
      let (a, store) := Api.list_documents store in
      (status (Handled a), store)
  | GetDocument doc_id =>
      let (a, store) := Api.get_document doc_id store in
      (status (Handled a), store)
  | DeleteDocument doc_id =>
      let (a, store) := Api.delete_document doc_id store in
      (status (Handled a), store)
  | PostAsk doc_id body elapsed_ms generate_json =>
      let (a, store) :=
        post_ask cfg generate_json doc_id body elapsed_ms store in
      (status a, store)
  end.

(** The store after a sequence of requests, the first request first. *)
Definition run (cfg : Config.Settings) (requests : list request)
    (store : Store.DocumentStore) : Store.DocumentStore :=
  fold_left (fun s r => snd (serve cfg r s)) requests store.

(** The stores the service reaches from the empty one. *)
Definition reachable (cfg : Config.Settings) (store : Store.DocumentStore)
    : Prop :=
  exists requests, store = run cfg requests Store.init.

(** Every stored document has a content of 10 to 50000 characters, a title
    of at most 200 characters and derived fields that agree with its
    content. *)
Definition well_formed (store : Store.DocumentStore) : Prop :=
  forall doc_id doc,
    Store._documents store !! doc_id = Some doc ->
    10 <= PyStr.len (Store.content doc) <= 50000
    /\ PyStr.len (Store.title doc) <= 200
    /\ Store.derived_ok doc.

End Http.

(** ** Hexadecimal digits *)
Module Hex.

(** The value of a hexadecimal digit, 0 for any other character. *)
Definition digit_value (c : ascii) : N :=
  let n := N_of_ascii c in
  if ((48 <=? n) && (n <=? 57))%N then (n - 48)%N
  else if ((97 <=? n) && (n <=? 102))%N then (n - 87)%N
  else 0%N.

(** [int(s, 16)] for a string of hexadecimal digits, continuing from the
    value [acc] of the digits read so far. *)
Fixpoint value_from (s : string) (acc : N) : N :=
  match s with
  | EmptyString => acc
  | String c rest => value_from rest (16 * acc + digit_value c)%N
  end.

Definition value (s : string) : N := value_from s 0.

(** Whether every character is one of [0-9a-f]. *)
Fixpoint is_hex (s : string) : bool :=
  match s with
  | EmptyString => true
  | String c rest =>
      let n := N_of_ascii c in
      (((48 <=? n) && (n <=? 57)) || ((97 <=? n) && (n <=? 102)))%N
      && is_hex rest
  end.

(** The first four of the sixteen random bytes, as a number. *)
Definition first_four_bytes (rnd : N) : N :=
  N.shiftr (N.land rnd (N.ones 128)) 96.

End Hex.

(** * Properties *)

(** ** Strings *)
Section StringFacts.

Lemma append_cons (c : ascii) (s t : string) :
  String c s +:+ t = String c (s +:+ t).
Proof. reflexivity. Qed.

Lemma append_nil_l (s : string) : "" +:+ s = s.
Proof. reflexivity. Qed.

Lemma append_nil_r (s : string) : s +:+ "" = s.
Proof.
  induction s as [|c s IH]; [reflexivity|].
  rewrite append_cons. by rewrite IH.
Qed.

Lemma append_assoc (a b c : string) : (a +:+ b) +:+ c = a +:+ (b +:+ c).
Proof.
  induction a as [|x a IH]; [reflexivity|].
  rewrite !append_cons. by rewrite IH.
Qed.

Lemma length_append (a b : string) :
  String.length (a +:+ b) = (String.length a + String.length b)%nat.
Proof.
  induction a as [|x a IH]; [reflexivity|].
  rewrite append_cons. simpl. by rewrite IH.
Qed.

Lemma len_append (a b : string) :
  PyStr.len (a +:+ b) = PyStr.len a + PyStr.len b.
Proof. unfold PyStr.len. rewrite length_append. lia. Qed.

Lemma len_nonneg (s : string) : 0 <= PyStr.len s.
Proof. unfold PyStr.len. lia. Qed.

(** The first [n] characters of a string are a prefix of it, [n] long when
    the string has that many. *)
Lemma substring_prefix (n : nat) (s : string) :
  exists tail, s = String.substring 0 n s +:+ tail.
Proof.
  revert s. induction n as [|n IH]; intros s.
  - exists s. by destruct s.
  - destruct s as [|c s].
    + by exists ""%string.
    + destruct (IH s) as [tail Htail]. exists tail. simpl.
      rewrite append_cons. by rewrite <- Htail.
Qed.

Lemma length_substring_0 (n : nat) (s : string) :
  String.length (String.substring 0 n s) = Nat.min n (String.length s).
Proof.
  revert s. induction n as [|n IH]; intros [|c s]; simpl; auto.
Qed.

(** A piece is found again where it was put. *)
Lemma substring_skip (a s : string) (m : nat) :
  String.substring (String.length a) m (a +:+ s) = String.substring 0 m s.
Proof.
  induction a as [|x a IH]; [reflexivity|].
  rewrite append_cons. simpl. exact IH.
Qed.

Lemma substring_whole (b c : string) :
  String.substring 0 (String.length b) (b +:+ c) = b.
Proof.
  induction b as [|x b IH].
  - simpl. by destruct c.
  - rewrite append_cons. simpl. by rewrite IH.
Qed.

Lemma substring_middle (a b c : string) :
  String.substring (String.length a) (String.length b) (a +:+ b +:+ c) = b.
Proof. rewrite substring_skip. apply substring_whole. Qed.

(** [s[:k]] for a bound within the string. *)
Lemma slice_to_within (s : string) (k : Z) :
  0 <= k <= PyStr.len s ->
  exists tail, s = PyStr.slice_to s k +:+ tail /\ PyStr.len (PyStr.slice_to s k) = k.
Proof.
  intros [Hk0 Hk]. unfold PyStr.slice_to.
  assert ((k <? 0) = false) as -> by lia.
  rewrite Z.min_l by lia.
  destruct (substring_prefix (Z.to_nat k) s) as [tail Htail].
  exists tail. split; [exact Htail|].
  unfold PyStr.len in *. rewrite length_substring_0. lia.
Qed.

(** [s[:k]] never takes more than the string has. *)
Lemma slice_to_len_le (s : string) (k : Z) :
  PyStr.len (PyStr.slice_to s k) <= PyStr.len s.
Proof.
  unfold PyStr.slice_to, PyStr.len. rewrite length_substring_0. lia.
Qed.

End StringFacts.

(** ** Context reduction *)

(** C4. A document whose length is at most the limit is returned as it is,
    whatever the limit. *)
Theorem reduce_context_identity (content : string) (limit : Z) :
  PyStr.len content <= limit ->
  QA.reduce_context limit content = content.
Proof.
  intros Hlen. unfold QA.reduce_context.
  destruct (PyStr.len content >? limit) eqn:Hgt; [lia | reflexivity].
Qed.

Lemma reduce_context_identity_witness :
  QA.reduce_context 5 "hello" = "hello"%string.
Proof.
  apply (reduce_context_identity "hello" 5).
  vm_compute. discriminate.
Defined.

(** The document that reaches the prompt is the reduced one. *)
Lemma answer_question_prompt (cfg : Config.Settings)
    (generate_json : Llm.client) (content question title : string) :
  QA.answer_question cfg generate_json content question title =
  generate_json
    (QA.build_prompt title
       (QA.reduce_context (Config.context_max_chars cfg) content) question)
    QA.QA_SYSTEM_PROMPT QA.temperature.
Proof.
  unfold QA.answer_question.
  by destruct (generate_json _ _ _).
Qed.

(** C5, as amended. For a limit that is not negative, a document longer than
    the limit is cut to its first [limit] characters, the marker (a blank
    line, then the fixed text) is appended, and the result is
    [limit + len(marker)] long. *)
Theorem reduce_context_truncates (content : string) (limit : Z) :
  0 <= limit ->
  PyStr.len content > limit ->
  exists head tail,
    content = head +:+ tail
    /\ PyStr.len head = limit
    /\ QA.reduce_context limit content = head +:+ QA.truncation_marker
    /\ PyStr.len (QA.reduce_context limit content)
       = limit + PyStr.len QA.truncation_marker
    /\ QA.truncation_marker
       = PyStr.LF +:+ PyStr.LF
         +:+ "[... Document truncated for processing ...]".
Proof.
  intros Hlimit Hlen.
  destruct (slice_to_within content limit) as (tail & Hsplit & Hhead); [lia|].
  exists (PyStr.slice_to content limit), tail.
  assert (Hred : QA.reduce_context limit content
                 = PyStr.slice_to content limit +:+ QA.truncation_marker).
  { unfold QA.reduce_context.
    destruct (PyStr.len content >? limit) eqn:Hgt; [reflexivity | lia]. }
  repeat split; try assumption.
  rewrite Hred, len_append, Hhead. reflexivity.
Qed.

Lemma reduce_context_truncates_witness :
  exists head tail,
    "hello world"%string = head +:+ tail
    /\ PyStr.len head = 5
    /\ QA.reduce_context 5 "hello world" = head +:+ QA.truncation_marker
    /\ PyStr.len (QA.reduce_context 5 "hello world")
       = 5 + PyStr.len QA.truncation_marker
    /\ QA.truncation_marker
       = PyStr.LF +:+ PyStr.LF
         +:+ "[... Document truncated for processing ...]".
Proof.
  apply (reduce_context_truncates "hello world" 5).
  - vm_compute. discriminate.
  - vm_compute. reflexivity.
Defined.

(** C5, as stated, fails for a negative limit: [content[:-1]] drops the last
    character only, so the result is neither [limit + len(marker)] long nor
    made of the first [limit] characters. *)
Lemma reduce_context_negative_limit :
  PyStr.len "abc" > -1
  /\ QA.reduce_context (-1) "abc" = "ab" +:+ QA.truncation_marker
  /\ PyStr.len (QA.reduce_context (-1) "abc") = 47
  /\ -1 + PyStr.len QA.truncation_marker = 44.
Proof. vm_compute. repeat split. Qed.

(** ** The prompt *)

(** C7. The prompt is one string: the title between its delimiters, the
    document body, the end-of-document marker, the question between its
    opening line and the end-of-question marker, and last the instruction.
    The body and the question are found in it character for character at
    the places the sections before them fix. *)
Theorem build_prompt_layout (title content question : string) :
  let title_section :=
    "=== DOCUMENT TITLE: " +:+ title +:+ " ===" +:+ PyStr.LF +:+ PyStr.LF in
  let end_of_document :=
    PyStr.LF +:+ PyStr.LF +:+ "=== END OF DOCUMENT ===" +:+ PyStr.LF
    +:+ PyStr.LF in
  let question_open := "=== QUESTION ===" +:+ PyStr.LF in
  let end_of_question :=
    PyStr.LF +:+ "=== END OF QUESTION ===" +:+ PyStr.LF +:+ PyStr.LF in
  let instruction := "Answer the question using ONLY the document above." in
  let before_question :=
    title_section +:+ content +:+ end_of_document +:+ question_open in
  let prompt := QA.build_prompt title content question in
  prompt = title_section +:+ content +:+ end_of_document +:+ question_open
           +:+ question +:+ end_of_question +:+ instruction
  /\ String.substring (String.length title_section) (String.length content)
       prompt = content
  /\ String.substring (String.length before_question) (String.length question)
       prompt = question.
Proof.
  intros title_section end_of_document question_open end_of_question
    instruction before_question prompt.
  assert (Hflat : prompt = title_section +:+ content +:+ end_of_document
                           +:+ question_open +:+ question +:+ end_of_question
                           +:+ instruction).
  { subst prompt title_section end_of_document question_open end_of_question
      instruction.
    unfold QA.build_prompt, PyStr.concat, QA.LF. simpl.
    rewrite !append_assoc, !append_nil_r. reflexivity. }
  split; [exact Hflat|]. split.
  - rewrite Hflat. apply substring_middle.
  - rewrite Hflat.
    replace (title_section +:+ content +:+ end_of_document +:+ question_open
             +:+ question +:+ end_of_question +:+ instruction)
      with (before_question +:+ question +:+ end_of_question +:+ instruction).
    + apply substring_middle.
    + subst before_question. rewrite !append_assoc. reflexivity.
Qed.

(** X11. Nothing in the body or the question is escaped: text that looks like the
    delimiters moves the boundary between them, so two different pairs of
    body and question can give one and the same prompt. *)
Lemma build_prompt_not_injective (title body first second : string) :
  let boundary :=
    PyStr.LF +:+ PyStr.LF +:+ "=== END OF DOCUMENT ===" +:+ PyStr.LF
    +:+ PyStr.LF +:+ "=== QUESTION ===" +:+ PyStr.LF in
  QA.build_prompt title (body +:+ boundary +:+ first) second
  = QA.build_prompt title body (first +:+ boundary +:+ second).
Proof.
  intros boundary. subst boundary.
  unfold QA.build_prompt, PyStr.concat, QA.LF. simpl.
  rewrite !append_assoc, !append_nil_r. reflexivity.
Qed.

(** ** Response interpretation *)
Section Interpretation.
Import Py Models.

Variables (cfg : Config.Settings) (doc : Store.Document)
  (request : QuestionRequest) (elapsed_ms : float).

Lemma Confidence_call_Return (v : pyval) (c : Confidence) :
  Confidence_call v = Return c <-> v = PStr (Confidence_value c).
Proof.
  split.
  - destruct v as [| | | |s| |]; simpl; try discriminate.
    destruct (String.eqb_spec s "high") as [->|_];
      [intros [= <-]; reflexivity|].
    destruct (String.eqb_spec s "medium") as [->|_];
      [intros [= <-]; reflexivity|].
    destruct (String.eqb_spec s "low") as [->|_];
      [intros [= <-]; reflexivity | discriminate].
  - intros ->. by destruct c.
Qed.

Lemma Confidence_call_Raise (v : pyval) (e : exn) :
  Confidence_call v = Raise e -> e = ValueError.
Proof.
  destruct v as [| | | |s| |]; simpl; try (intros [= <-]; reflexivity).
  repeat (match goal with |- context [String.eqb ?a ?b] =>
                            destruct (String.eqb a b) end;
          try discriminate).
  by intros [= <-].
Qed.

Lemma validate_str_Return (v : pyval) (s : string) :
  validate_str v = Return s <-> v = PStr s.
Proof.
  split; [|by intros ->].
  destruct v; simpl; try discriminate. by intros [= ->].
Qed.

Lemma validate_str_Raise (v : pyval) (e : exn) :
  validate_str v = Raise e -> e = ValidationError.
Proof. destruct v; simpl; try discriminate; by intros [= <-]. Qed.

Lemma validate_items_Return (l : list pyval) (ss : list string) :
  validate_items l = Return ss <-> l = PStr <$> ss.
Proof.
  revert ss. induction l as [|v l IH]; intros ss; simpl.
  - split; [intros [= <-]; reflexivity|]. by destruct ss.
  - destruct (validate_str v) as [s|e] eqn:Hv; simpl.
    + apply validate_str_Return in Hv as ->.
      destruct (validate_items l) as [ss'|e] eqn:Hl; simpl.
      * split.
        -- intros [= <-]. simpl. f_equal. by apply IH.
        -- destruct ss as [|s0 ss0]; [discriminate|]. simpl.
           intros [= -> Hrest]. apply IH in Hrest. by injection Hrest as ->.
      * split; [discriminate|].
        destruct ss as [|s0 ss0]; [discriminate|]. simpl.
        intros [= -> Hrest]. apply IH in Hrest. discriminate.
    + split; [discriminate|].
      destruct ss as [|s0 ss0]; [discriminate|]. simpl.
      intros [= -> _]. discriminate.
Qed.

Lemma validate_items_Raise (l : list pyval) (e : exn) :
  validate_items l = Raise e -> e = ValidationError.
Proof.
  induction l as [|v l IH]; simpl; [discriminate|].
  destruct (validate_str v) as [s|e'] eqn:Hv; simpl.
  - destruct (validate_items l) as [ss|e'']; simpl; [discriminate|].
    intros [= <-]. by apply IH.
  - intros [= <-]. by apply validate_str_Raise in Hv.
Qed.

Lemma validate_list_str_Return (v : pyval) (ss : list string) :
  validate_list_str v = Return ss <-> v = PList (PStr <$> ss).
Proof.
  destruct v as [| | | | |l|]; simpl; try (split; discriminate).
  rewrite validate_items_Return. split; [by intros ->|by intros [= ->]].
Qed.

Lemma validate_list_str_Raise (v : pyval) (e : exn) :
  validate_list_str v = Raise e -> e = ValidationError.
Proof.
  destruct v as [| | | | |l|]; simpl; try (by intros [= <-]).
  apply validate_items_Raise.
Qed.

Lemma validate_bool_Raise (v : pyval) (e : exn) :
  validate_bool v = Raise e -> e = ValidationError.
Proof.
  destruct v as [|b|z|f|s| |]; simpl; try (by intros [= <-]);
    repeat (match goal with |- context [if ?c then _ else _] =>
                              destruct c end;
            try discriminate);
    by intros [= <-].
Qed.

(** Interpretation reads the four fields one after the other, the
    confidence first. *)
Lemma interpret_unfold (m : gmap string pyval) :
  Api.interpret cfg doc request elapsed_ms m =
  (let* c := Api.field_value m "confidence" LOW Confidence_call in
   let* a := Api.field_value m "answer" "Unable to generate answer"%string
               validate_str in
   let* q := Api.field_value m "relevant_quotes" [] validate_list_str in
   let* n := Api.field_value m "not_found" false validate_bool in
   Return {| answer := a; confidence := c; relevant_quotes := q;
             not_found := n; document_title := Store.title doc;
             question := question_text request;
             model_used := Config.openai_model cfg;
             processing_time_ms := elapsed_ms |}).
Proof.
  unfold Api.interpret, Api.field_value, dict_get, AnswerResponse_init.
  destruct (m !! "confidence"), (m !! "answer"), (m !! "relevant_quotes"),
    (m !! "not_found"); reflexivity.
Qed.

(** What each field of an answer that was produced holds. *)
Lemma interpret_Return_fields (m : gmap string pyval) (r : AnswerResponse) :
  Api.interpret cfg doc request elapsed_ms m = Return r ->
  Api.field_value m "confidence" LOW Confidence_call = Return (confidence r)
  /\ Api.field_value m "answer" "Unable to generate answer"%string
       validate_str = Return (answer r)
  /\ Api.field_value m "relevant_quotes" [] validate_list_str
     = Return (relevant_quotes r)
  /\ Api.field_value m "not_found" false validate_bool
     = Return (not_found r)
  /\ document_title r = Store.title doc
  /\ question r = question_text request
  /\ model_used r = Config.openai_model cfg
  /\ processing_time_ms r = elapsed_ms.
Proof.
  rewrite interpret_unfold.
  destruct (Api.field_value m "confidence" _ _) as [c|]; [|discriminate].
  destruct (Api.field_value m "answer" _ _) as [a|]; [|discriminate].
  destruct (Api.field_value m "relevant_quotes" _ _) as [q|]; [|discriminate].
  destruct (Api.field_value m "not_found" _ _) as [n|]; [|discriminate].
  simpl. intros [= <-]. simpl. repeat split.
Qed.

Lemma bind_Raise {A B} (c : raises A) (k : A -> raises B) (e : exn) :
  Py.bind c k = Raise e ->
  c = Raise e \/ exists a, c = Return a /\ k a = Raise e.
Proof. destruct c as [a|e']; simpl; [right; eauto | left; congruence]. Qed.

Lemma field_value_Raise {A} (m : gmap string pyval) (key : string) (dflt : A)
    (validate : pyval -> raises A) (e : exn) :
  Api.field_value m key dflt validate = Raise e ->
  exists v, m !! key = Some v /\ validate v = Raise e.
Proof.
  unfold Api.field_value. destruct (m !! key) as [v|]; [eauto|discriminate].
Qed.

(** A failure of interpretation comes from a rejected field and is a
    [ValueError]. *)
Lemma interpret_Raise_rejected (m : gmap string pyval) (e : exn) :
  Api.interpret cfg doc request elapsed_ms m = Raise e ->
  Api.rejected m /\ is_ValueError e = true.
Proof.
  rewrite interpret_unfold. unfold Api.rejected. intros H.
  apply bind_Raise in H as [H|(c & _ & H)].
  { apply field_value_Raise in H as (v & Hv & H).
    apply Confidence_call_Raise in H as Hcls. subst e.
    split; [|reflexivity]. left. exists v. split; [exact Hv|].
    intros c Heq. apply Confidence_call_Return in Heq. congruence. }
  apply bind_Raise in H as [H|(a & _ & H)].
  { apply field_value_Raise in H as (v & Hv & H).
    apply validate_str_Raise in H as Hcls. subst e.
    split; [|reflexivity]. right; left. exists v. split; [exact Hv|].
    intros s Heq. apply validate_str_Return in Heq. congruence. }
  apply bind_Raise in H as [H|(q & _ & H)].
  { apply field_value_Raise in H as (v & Hv & H).
    apply validate_list_str_Raise in H as Hcls. subst e.
    split; [|reflexivity]. right; right; left. exists v. split; [exact Hv|].
    intros l Heq. apply validate_list_str_Return in Heq. congruence. }
  apply bind_Raise in H as [H|(n & _ & H)]; [|discriminate].
  apply field_value_Raise in H as (v & Hv & H).
  apply validate_bool_Raise in H as Hcls. subst e.
  split; [|reflexivity]. right; right; right. exists v. split; [exact Hv|].
  congruence.
Qed.

(** A mapping with a rejected field yields no answer. *)
Lemma rejected_interpret_Raise (m : gmap string pyval) :
  Api.rejected m ->
  exists e, Api.interpret cfg doc request elapsed_ms m = Raise e.
Proof.
  intros Hrej.
  destruct (Api.interpret cfg doc request elapsed_ms m) as [r|e] eqn:Hout;
    [exfalso | by exists e].
  apply interpret_Return_fields in Hout as (Hc & Ha & Hq & Hn & _).
  unfold Api.field_value in *.
  destruct Hrej as [(v & Hv & Hno)|[(v & Hv & Hno)|[(v & Hv & Hno)
                   |(v & Hv & Hno)]]]; rewrite Hv in *.
  - apply Confidence_call_Return in Hc. by apply (Hno (confidence r)).
  - apply validate_str_Return in Ha. by apply (Hno (answer r)).
  - apply validate_list_str_Return in Hq. by apply (Hno (relevant_quotes r)).
  - by apply (Hno (not_found r)).
Qed.

(** C1, as amended. A field that is absent takes its default: [low], the
    empty list, [false], the generic answer. A field that is present is
    never replaced: in an answer that is produced the answer text, the
    confidence and the quotes are the ones of the mapping (the empty answer
    included) and the flag is what validation makes of the mapping's value.
    Interpretation fails exactly when a present field is rejected, and then
    with a [ValueError]. *)
Theorem interpret_defaults_absent_fields (m : gmap string pyval) :
  let out := Api.interpret cfg doc request elapsed_ms m in
  (forall r, out = Return r ->
     (m !! "confidence" = None -> confidence r = LOW)
     /\ (m !! "relevant_quotes" = None -> relevant_quotes r = [])
     /\ (m !! "not_found" = None -> not_found r = false)
     /\ (m !! "answer" = None
         -> answer r = "Unable to generate answer"%string)
     /\ (forall v, m !! "confidence" = Some v
                   -> v = PStr (Confidence_value (confidence r)))
     /\ (forall v, m !! "relevant_quotes" = Some v
                   -> v = PList (PStr <$> relevant_quotes r))
     /\ (forall v, m !! "not_found" = Some v
                   -> validate_bool v = Return (not_found r))
     /\ (forall v, m !! "answer" = Some v -> v = PStr (answer r)))
  /\ ((exists e, out = Raise e) <-> Api.rejected m)
  /\ ((exists r, out = Return r) <-> ~ Api.rejected m)
  /\ (forall e, out = Raise e -> is_ValueError e = true).
Proof.
  intros out. subst out. split; [|split; [|split]].
  - intros r H.
    apply interpret_Return_fields in H as (Hc & Ha & Hq & Hn & _).
    unfold Api.field_value in *.
    repeat split.
    + intros Hnone. rewrite Hnone in Hc. congruence.
    + intros Hnone. rewrite Hnone in Hq. congruence.
    + intros Hnone. rewrite Hnone in Hn. congruence.
    + intros Hnone. rewrite Hnone in Ha. congruence.
    + intros v Hv. rewrite Hv in Hc. by apply Confidence_call_Return.
    + intros v Hv. rewrite Hv in Hq. by apply validate_list_str_Return.
    + intros v Hv. by rewrite Hv in Hn.
    + intros v Hv. rewrite Hv in Ha. by apply validate_str_Return.
  - split.
    + intros [e He]. by apply interpret_Raise_rejected in He as [? _].
    + apply rejected_interpret_Raise.
  - split.
    + intros [r Hr] Hrej. apply rejected_interpret_Raise in Hrej as [e He].
      congruence.
    + intros Hno.
      destruct (Api.interpret cfg doc request elapsed_ms m) as [r|e] eqn:Hout;
        [by exists r|].
      by apply interpret_Raise_rejected in Hout as [? _].
  - intros e He. by apply interpret_Raise_rejected in He as [_ ?].
Qed.

(** C3. When each of the four fields is either missing or present with a
    legal value, the answer holds the default for every missing field
    ([low], the empty list, [false], the generic answer) and the mapping's
    own value for every field that is present. *)
Theorem interpret_missing_fields (m : gmap string pyval)
    (a : option string) (c : option Confidence) (q : option (list string))
    (n : option bool) :
  m !! "answer" = PStr <$> a ->
  m !! "confidence" = (fun c => PStr (Confidence_value c)) <$> c ->
  m !! "relevant_quotes" = (fun q => PList (PStr <$> q)) <$> q ->
  m !! "not_found" = PBool <$> n ->
  Api.interpret cfg doc request elapsed_ms m =
  Return {| answer := default "Unable to generate answer"%string a;
            confidence := default LOW c;
            relevant_quotes := default [] q;
            not_found := default false n;
            document_title := Store.title doc;
            question := question_text request;
            model_used := Config.openai_model cfg;
            processing_time_ms := elapsed_ms |}.
Proof.
  intros Ha Hc Hq Hn. rewrite interpret_unfold. unfold Api.field_value.
  rewrite Ha, Hc, Hq, Hn.
  assert (Hconf : forall c0, Confidence_call (PStr (Confidence_value c0))
                             = Return c0)
    by (intros c0; by apply Confidence_call_Return).
  assert (Hitems : forall q0, validate_list_str (PList (PStr <$> q0))
                              = Return q0)
    by (intros q0; by apply validate_list_str_Return).
  destruct a, c, q, n; cbn [fmap option_fmap option_map];
    rewrite ?Hconf, ?Hitems; reflexivity.
Qed.

End Interpretation.

Lemma interpret_missing_fields_witness :
  Api.interpret Config.settings Sample.doc Sample.request 12.5%float
    {[ "answer" := Py.PStr "By ten percent." ]}
  = Py.Return {| Models.answer := "By ten percent.";
                 Models.confidence := Models.LOW;
                 Models.relevant_quotes := [];
                 Models.not_found := false;
                 Models.document_title := "Report";
                 Models.question := "How much did revenue grow?";
                 Models.model_used := "gpt-4o-mini";
                 Models.processing_time_ms := 12.5%float |}.
Proof.
  apply (interpret_missing_fields Config.settings Sample.doc Sample.request
           12.5%float {[ "answer" := Py.PStr "By ten percent." ]}
           (Some "By ten percent."%string) None None None);
    reflexivity.
Defined.

Lemma interpret_defaults_absent_fields_witness :
  exists r,
    Api.interpret Config.settings Sample.doc Sample.request 12.5%float ∅
    = Py.Return r
    /\ Models.confidence r = Models.LOW
    /\ Models.relevant_quotes r = []
    /\ Models.not_found r = false
    /\ Models.answer r = "Unable to generate answer"%string.
Proof.
  destruct (interpret_defaults_absent_fields Config.settings Sample.doc
              Sample.request 12.5%float ∅) as (Hfields & _ & Hreturns & _).
  destruct (proj2 Hreturns) as [r Hr].
  { intros [(v & Hv & _)|[(v & Hv & _)|[(v & Hv & _)|(v & Hv & _)]]];
      discriminate Hv. }
  destruct (Hfields r Hr) as (Hc & Hq & Hn & Ha & _).
  exists r. split; [exact Hr|].
  split; [by apply Hc|]. split; [by apply Hq|].
  split; [by apply Hn | by apply Ha].
Defined.

(** C1, as stated, fails on values that are present: an empty answer is
    kept, and a confidence outside the three values, quotes that are not a
    list and a flag that is [None] make interpretation fail instead of being
    replaced. *)
Lemma interpret_present_fields_not_defaulted :
  Api.interpret Config.settings Sample.doc Sample.request 12.5%float
    {[ "answer" := Py.PStr "" ]}
  = Py.Return {| Models.answer := "";
                 Models.confidence := Models.LOW;
                 Models.relevant_quotes := [];
                 Models.not_found := false;
                 Models.document_title := "Report";
                 Models.question := "How much did revenue grow?";
                 Models.model_used := "gpt-4o-mini";
                 Models.processing_time_ms := 12.5%float |}
  /\ Api.interpret Config.settings Sample.doc Sample.request 12.5%float
       {[ "confidence" := Py.PStr "very high" ]}
     = Py.Raise Py.ValueError
  /\ Api.interpret Config.settings Sample.doc Sample.request 12.5%float
       {[ "relevant_quotes" := Py.PStr "Revenue grew" ]}
     = Py.Raise Py.ValidationError
  /\ Api.interpret Config.settings Sample.doc Sample.request 12.5%float
       {[ "not_found" := Py.PNone ]}
     = Py.Raise Py.ValidationError.
Proof. repeat split. Qed.

(** ** The question handler *)
Section AskQuestion.
Import Py Models.

Variables (cfg : Config.Settings) (generate_json : Llm.client).

(** The reply for a stored document, by the way the model call ends. *)
Lemma ask_question_reply (doc_id : string) (request : QuestionRequest)
    (elapsed_ms : float) (store : Store.DocumentStore) (doc : Store.Document) :
  Store._documents store !! doc_id = Some doc ->
  Api.ask_question cfg generate_json doc_id request elapsed_ms store =
  (match generate_json (Api.prompt_for cfg doc request) QA.QA_SYSTEM_PROMPT
           QA.temperature with
   | Return m =>
       match Api.interpret cfg doc request elapsed_ms m with
       | Return r => Api.Respond 200 r
       | Raise _ => Api.HTTPException 422
       end
   | Raise e =>
       if is_ValueError e then Api.HTTPException 422
       else Api.HTTPException 500
   end, store).
Proof.
  intros Hdoc.
  unfold Api.ask_question, Store.get, Api.ask_body, QA.answer_question,
    Api.prompt_for.
  rewrite Hdoc.
  destruct (generate_json _ _ _) as [m|e]; simpl.
  - destruct (Api.interpret cfg doc request elapsed_ms m) as [r|e] eqn:Hout;
      [reflexivity|].
    apply interpret_Raise_rejected in Hout as [_ ->]. reflexivity.
  - by destruct (is_ValueError e).
Qed.

(** Dropping a key never makes a mapping rejected. *)
Lemma rejected_delete (m : gmap string pyval) (key : string) :
  Api.rejected (base.delete key m) -> Api.rejected m.
Proof.
  assert (Hsub : forall k v, base.delete key m !! k = Some v -> m !! k = Some v).
  { intros k v. rewrite lookup_delete_Some. by intros [_ ?]. }
  unfold Api.rejected.
  intros [(v & Hv & H)|[(v & Hv & H)|[(v & Hv & H)|(v & Hv & H)]]];
    apply Hsub in Hv; eauto 10.
Qed.

(** C2, as amended. For a stored document the handler answers 422 exactly
    when the model call raises a [ValueError] (a malformed response) or
    returns a mapping with a rejected field, and 500 exactly when the call
    raises any other exception. A mapping without a rejected field is
    answered with 200 and its interpretation, dropping a field never turns
    an accepted mapping into a rejected one, and an answer that is returned
    is always the interpretation of the decoded mapping. *)
Theorem ask_question_statuses (doc_id : string) (request : QuestionRequest)
    (elapsed_ms : float) (store : Store.DocumentStore) (doc : Store.Document) :
  Store._documents store !! doc_id = Some doc ->
  let outcome :=
    generate_json (Api.prompt_for cfg doc request) QA.QA_SYSTEM_PROMPT
      QA.temperature in
  let reply :=
    fst (Api.ask_question cfg generate_json doc_id request elapsed_ms store) in
  (reply = Api.HTTPException 422 <->
     (exists e, outcome = Raise e /\ is_ValueError e = true)
     \/ exists m, outcome = Return m /\ Api.rejected m)
  /\ (reply = Api.HTTPException 500 <->
      exists e, outcome = Raise e /\ is_ValueError e = false)
  /\ (forall m, outcome = Return m -> ~ Api.rejected m ->
        exists r, Api.interpret cfg doc request elapsed_ms m = Return r
                  /\ reply = Api.Respond 200 r)
  /\ (forall m key, ~ Api.rejected m -> ~ Api.rejected (base.delete key m))
  /\ (forall code r, reply = Api.Respond code r ->
        code = 200
        /\ exists m, outcome = Return m
                     /\ Api.interpret cfg doc request elapsed_ms m = Return r).
Proof.
  intros Hdoc outcome reply. subst reply.
  rewrite (ask_question_reply _ _ _ _ _ Hdoc). fold outcome. cbn [fst].
  assert (Hint : forall m,
    (exists r, Api.interpret cfg doc request elapsed_ms m = Return r
               /\ ~ Api.rejected m)
    \/ (exists e, Api.interpret cfg doc request elapsed_ms m = Raise e
                  /\ Api.rejected m)).
  { intros m.
    destruct (Api.interpret cfg doc request elapsed_ms m) as [r|e] eqn:Hout.
    - left. exists r. split; [reflexivity|]. intros Hrej.
      apply (rejected_interpret_Raise cfg doc request elapsed_ms) in Hrej
        as [e He]. congruence.
    - right. exists e. split; [reflexivity|].
      by apply interpret_Raise_rejected in Hout as [? _]. }
  split; [|split; [|split; [|split]]].
  - destruct outcome as [m|e];
      [destruct (Hint m) as [(r & -> & Hok)|(e & -> & Hrej)]
      |destruct (is_ValueError e) eqn:Hcls]; split.
    + discriminate.
    + intros [(e & ? & _)|(m' & [= <-] & ?)]; [discriminate|contradiction].
    + intros _. right. eauto.
    + reflexivity.
    + intros _. left. eauto.
    + reflexivity.
    + discriminate.
    + intros [(e' & [= <-] & ?)|(m' & ? & _)]; [congruence|discriminate].
  - destruct outcome as [m|e];
      [destruct (Hint m) as [(r & -> & Hok)|(e & -> & Hrej)]
      |destruct (is_ValueError e) eqn:Hcls]; split.
    + discriminate.
    + intros (e & ? & _). discriminate.
    + discriminate.
    + intros (e' & ? & _). discriminate.
    + discriminate.
    + intros (e' & [= <-] & ?). congruence.
    + intros _. eauto.
    + reflexivity.
  - intros m -> Hok.
    destruct (Hint m) as [(r & Hr & _)|(e & _ & Hrej)]; [|contradiction].
    exists r. by rewrite Hr.
  - intros m key Hok Hrej. by apply rejected_delete in Hrej.
  - intros code r.
    destruct outcome as [m|e];
      [destruct (Hint m) as [(r' & Hr & Hok)|(e & -> & Hrej)]
      |destruct (is_ValueError e)];
      try discriminate.
    rewrite Hr. intros [= <- <-]. eauto.
Qed.

End AskQuestion.

Lemma sample_store_lookup :
  Store._documents Sample.store !! Sample.doc_id = Some Sample.doc.
Proof. reflexivity. Qed.

Lemma ask_question_statuses_witness :
  Store._documents Sample.store !! Sample.doc_id = Some Sample.doc
  /\ fst (Api.ask_question Config.settings
            (fun _ _ _ => Py.Raise Py.ValueError) Sample.doc_id Sample.request
            12.5%float Sample.store)
     = Api.HTTPException 422.
Proof.
  split; [reflexivity|].
  apply (ask_question_statuses Config.settings
           (fun _ _ _ => Py.Raise Py.ValueError) Sample.doc_id Sample.request
           12.5%float Sample.store Sample.doc eq_refl).
  left. exists Py.ValueError. split; reflexivity.
Defined.

(** C2, as stated, fails: the model call returns, so the output was decoded,
    and the mapping holds all four fields, yet the handler answers 422
    because the confidence is not one of the three values. *)
Lemma ask_question_422_on_decoded_output :
  Sample.replies
    {[ "answer" := Py.PStr "By ten percent.";
       "confidence" := Py.PStr "very high";
       "relevant_quotes" := Py.PList [Py.PStr "Revenue grew by ten percent."];
       "not_found" := Py.PBool false ]}
    (QA.build_prompt "Report" "Revenue grew by ten percent."
       "How much did revenue grow?")
    QA.QA_SYSTEM_PROMPT QA.temperature
  = Py.Return
      {[ "answer" := Py.PStr "By ten percent.";
         "confidence" := Py.PStr "very high";
         "relevant_quotes" := Py.PList [Py.PStr "Revenue grew by ten percent."];
         "not_found" := Py.PBool false ]}
  /\ fst (Api.ask_question Config.settings
            (Sample.replies
               {[ "answer" := Py.PStr "By ten percent.";
                  "confidence" := Py.PStr "very high";
                  "relevant_quotes" :=
                    Py.PList [Py.PStr "Revenue grew by ten percent."];
                  "not_found" := Py.PBool false ]})
            Sample.doc_id Sample.request 12.5%float Sample.store)
     = Api.HTTPException 422.
Proof. split; reflexivity. Qed.

(** ** The document store and its handlers *)
Section StoreFacts.

Implicit Types (store : Store.DocumentStore) (doc_id : string).

Lemma absent_lookup store doc_id :
  doc_id ∉ dom (Store._documents store)
  <-> Store._documents store !! doc_id = None.
Proof. apply not_elem_of_dom. Qed.

Lemma present_lookup store doc_id :
  doc_id ∈ dom (Store._documents store)
  <-> exists doc, Store._documents store !! doc_id = Some doc.
Proof. apply elem_of_dom. Qed.

(** C6. When the store holds at least the configured maximum of documents,
    an upload is answered with 400 and the store after it is the store
    before it: the same mapping, hence the same count. *)
Theorem upload_rejected_at_limit (cfg : Config.Settings)
    (request : Models.DocumentUploadRequest) (rnd : N) (now : string) store :
  fst (Store.count store) >= Config.max_documents cfg ->
  fst (Api.upload_document cfg request rnd now store) = Api.HTTPException 400
  /\ snd (Api.upload_document cfg request rnd now store) = store
  /\ Store._documents (snd (Api.upload_document cfg request rnd now store))
     = Store._documents store
  /\ fst (Store.count (snd (Api.upload_document cfg request rnd now store)))
     = fst (Store.count store).
Proof.
  intros Hfull. unfold Api.upload_document.
  destruct (Store.count store) as [n store'] eqn:Hcount.
  unfold Store.count in Hcount. injection Hcount as <- <-.
  simpl in Hfull.
  destruct (Z.of_nat (size (Store._documents store))
            >=? Config.max_documents cfg) eqn:Hge; [|lia].
  simpl. auto.
Qed.

Lemma upload_rejected_at_limit_witness :
  fst (Api.upload_document Sample.one_document
         {| Models.upload_content := "A second document.";
            Models.upload_title := "Second" |}
         1 "2025-01-02T00:00:00" Sample.store) = Api.HTTPException 400
  /\ snd (Api.upload_document Sample.one_document
         {| Models.upload_content := "A second document.";
            Models.upload_title := "Second" |}
         1 "2025-01-02T00:00:00" Sample.store) = Sample.store
  /\ Store._documents
       (snd (Api.upload_document Sample.one_document
               {| Models.upload_content := "A second document.";
                  Models.upload_title := "Second" |}
               1 "2025-01-02T00:00:00" Sample.store))
     = Store._documents Sample.store
  /\ fst (Store.count
            (snd (Api.upload_document Sample.one_document
                    {| Models.upload_content := "A second document.";
                       Models.upload_title := "Second" |}
                    1 "2025-01-02T00:00:00" Sample.store)))
     = fst (Store.count Sample.store).
Proof.
  apply (upload_rejected_at_limit Sample.one_document
           {| Models.upload_content := "A second document.";
              Models.upload_title := "Second" |}
           1 "2025-01-02T00:00:00" Sample.store).
  vm_compute. discriminate.
Defined.

(** Below the limit the upload is stored and answered with 201. *)
Lemma upload_accepted_below_limit (cfg : Config.Settings)
    (request : Models.DocumentUploadRequest) (rnd : N) (now : string) store :
  fst (Store.count store) < Config.max_documents cfg ->
  exists meta,
    fst (Api.upload_document cfg request rnd now store) = Api.Respond 201 meta
    /\ snd (Api.upload_document cfg request rnd now store)
       = snd (Store.add (Models.upload_content request)
                (Models.upload_title request) rnd now store).
Proof.
  intros Hroom. unfold Api.upload_document, Store.count in *. simpl in *.
  destruct (Z.of_nat (size (Store._documents store))
            >=? Config.max_documents cfg) eqn:Hge; [lia|].
  unfold Store.get, Store.add. simpl. rewrite lookup_insert_eq.
  eexists. split; reflexivity.
Qed.

(** C8. For an id that is absent from the store the three handlers that
    take an id answer 404 and leave the store as it is. [get] returns [None]
    and [delete] returns [False] exactly when the id is absent; [delete]
    returns [True] exactly when it is present, and then the id is gone and
    every other document is untouched, while for an absent id the store is
    unchanged. *)
Theorem missing_document_is_404 (cfg : Config.Settings)
    (generate_json : Llm.client)
    (request : Models.QuestionRequest) (elapsed_ms : float) store doc_id :
  (doc_id ∉ dom (Store._documents store) ->
     Api.get_document doc_id store = (Api.HTTPException 404, store)
     /\ Api.delete_document doc_id store = (Api.HTTPException 404, store)
     /\ Api.ask_question cfg generate_json doc_id request elapsed_ms store
        = (Api.HTTPException 404, store))
  /\ (fst (Store.get doc_id store) = None
      <-> doc_id ∉ dom (Store._documents store))
  /\ (fst (Store.delete doc_id store) = false
      <-> doc_id ∉ dom (Store._documents store))
  /\ (fst (Store.delete doc_id store) = true
      <-> doc_id ∈ dom (Store._documents store))
  /\ (doc_id ∈ dom (Store._documents store) ->
       (doc_id ∉ dom (Store._documents (snd (Store.delete doc_id store))))
       /\ forall other, other <> doc_id ->
            Store._documents (snd (Store.delete doc_id store)) !! other
            = Store._documents store !! other)
  /\ (doc_id ∉ dom (Store._documents store) ->
       snd (Store.delete doc_id store) = store).
Proof.
  unfold Api.get_document, Api.delete_document, Api.ask_question,
    Store.get, Store.delete.
  destruct (Store._documents store !! doc_id) as [doc|] eqn:Hdoc; simpl.
  - assert (Hin : doc_id ∈ dom (Store._documents store))
      by (apply elem_of_dom; eauto).
    split; [intros Hout; contradiction|].
    split; [split; [discriminate | intros Hout; contradiction]|].
    split; [split; [discriminate | intros Hout; contradiction]|].
    split; [split; auto|].
    split; [|intros Hout; contradiction].
    intros _. split.
    + apply not_elem_of_dom, lookup_delete_eq.
    + intros other Hother. by apply lookup_delete_ne.
  - assert (Hout : doc_id ∉ dom (Store._documents store))
      by (by apply not_elem_of_dom).
    split; [auto|]. split; [split; auto|]. split; [split; auto|].
    split; [split; [discriminate | intros Hin; contradiction]|].
    split; [intros Hin; contradiction | auto].
Qed.

Lemma missing_document_is_404_witness :
  ("ffffffff"%string ∉ dom (Store._documents Sample.store))
  /\ Api.get_document "ffffffff" Sample.store
     = (Api.HTTPException 404, Sample.store)
  /\ Api.delete_document "ffffffff" Sample.store
     = (Api.HTTPException 404, Sample.store)
  /\ Api.ask_question Config.settings (Sample.replies ∅) "ffffffff"
       Sample.request 12.5%float Sample.store
     = (Api.HTTPException 404, Sample.store).
Proof.
  assert (Habsent : "ffffffff"%string ∉ dom (Store._documents Sample.store))
    by (apply not_elem_of_dom; reflexivity).
  split; [exact Habsent|].
  by apply (missing_document_is_404 Config.settings (Sample.replies ∅)
              Sample.request 12.5%float Sample.store "ffffffff").
Defined.

(** The id [add] assigns is made of the top 32 bits of the random bytes. *)
Lemma add_assigns_top_bits (content_v title_v now : string) (rnd : N) store :
  fst (Store.add content_v title_v rnd now store)
  = PyStr.slice_to (Store.uuid_str (Store.uuid4 rnd)) 8.
Proof. reflexivity. Qed.

(** [add] stores the document under the id it returns, and touches no other
    id. It does not look whether the id is taken. *)
Lemma add_stores (content_v title_v now : string) (rnd : N) store :
  let doc_id := fst (Store.add content_v title_v rnd now store) in
  let store' := snd (Store.add content_v title_v rnd now store) in
  (exists doc, Store._documents store' !! doc_id = Some doc
               /\ Store.content doc = content_v
               /\ Store.title doc = title_v
               /\ Store.derived_ok doc)
  /\ forall other, other <> doc_id ->
       Store._documents store' !! other = Store._documents store !! other.
Proof.
  simpl. split.
  - eexists. rewrite lookup_insert_eq. split; [reflexivity|].
    unfold Store.derived_ok. simpl. auto.
  - intros other Hother. by rewrite lookup_insert_ne.
Qed.

(** With a fresh id the store grows by one; with an id that is taken the
    count stays and the document stored under it is replaced. *)
Lemma add_count (content_v title_v now : string) (rnd : N) store :
  let doc_id := fst (Store.add content_v title_v rnd now store) in
  let store' := snd (Store.add content_v title_v rnd now store) in
  (doc_id ∉ dom (Store._documents store) ->
     fst (Store.count store') = fst (Store.count store) + 1)
  /\ (doc_id ∈ dom (Store._documents store) ->
       fst (Store.count store') = fst (Store.count store)).
Proof.
  simpl. split.
  - intros Hfresh%not_elem_of_dom.
    rewrite map_size_insert_None by done. lia.
  - intros [doc Hdoc]%elem_of_dom.
    by rewrite map_size_insert_Some.
Qed.

(** C9 fails in the code. Two uploads whose random bytes agree in their
    first four bytes get the same id, although the UUIDs drawn differ: the
    second document replaces the first and the store still holds one
    document. *)
Theorem add_collision_overwrites :
  let rnd1 := 0xdeadbeef000000000000000000000001%N in
  let rnd2 := 0xdeadbeefffffffffffffffffffffffff%N in
  let first := Store.add "The first document." "First" rnd1
                 "2025-01-01T00:00:00" Store.init in
  let second := Store.add "The second document." "Second" rnd2
                  "2025-01-02T00:00:00" (snd first) in
  Store.uuid_str (Store.uuid4 rnd1) = "deadbeef-0000-4000-8000-000000000001"
  /\ Store.uuid_str (Store.uuid4 rnd2)
     = "deadbeef-ffff-4fff-bfff-ffffffffffff"
  /\ fst first = "deadbeef" /\ fst second = "deadbeef"
  /\ Store.content <$> Store._documents (snd first) !! "deadbeef"
     = Some "The first document."
  /\ Store.content <$> Store._documents (snd second) !! "deadbeef"
     = Some "The second document."
  /\ fst (Store.count (snd second)) = 1.
Proof. repeat split. Qed.

End StoreFacts.

(** ** The derived fields of stored documents *)
Section DerivedFields.

(** A call that only reads returns the store it was given. *)
Lemma after_reads_only (c : Store.call) (store : Store.DocumentStore) :
  Store.reads_only c = true -> Store.after c store = store.
Proof. destruct c; simpl; (discriminate || reflexivity). Qed.

(** No call but [add] puts a document into the store or changes one: what
    is stored after the call was stored, with the same fields, before. *)
Lemma after_keeps_documents (c : Store.call) (store : Store.DocumentStore)
    (doc_id : string) (doc : Store.Document) :
  Store.is_add c = false ->
  Store._documents (Store.after c store) !! doc_id = Some doc ->
  Store._documents store !! doc_id = Some doc.
Proof.
  destruct c as [ | | | |gone| ]; simpl; try discriminate; try done.
  intros _. unfold Store.delete.
  destruct (Store._documents store !! gone); simpl; [|done].
  rewrite lookup_delete_Some. by intros [_ ?].
Qed.

Lemma consistent_after (c : Store.call) (store : Store.DocumentStore) :
  Store.consistent store -> Store.consistent (Store.after c store).
Proof.
  intros Hinv doc_id doc.
  destruct (Store.is_add c) eqn:Hadd.
  - destruct c as [content_v title_v rnd now| | | | | ]; try discriminate.
    simpl. rewrite lookup_insert_Some.
    intros [[_ <-]|[_ Hold]]; [|by eapply Hinv].
    unfold Store.derived_ok. simpl. auto.
  - intros Hdoc. apply after_keeps_documents in Hdoc; [|done].
    by eapply Hinv.
Qed.

Lemma consistent_run (calls : list Store.call) (store : Store.DocumentStore) :
  Store.consistent store -> Store.consistent (Store.run calls store).
Proof.
  revert store. induction calls as [|c calls IH]; intros store Hinv.
  - exact Hinv.
  - simpl. apply IH. by apply consistent_after.
Qed.

(** C10. In every store reached from the empty one by calls of its methods,
    each stored document has [character_count = len(content)] and
    [word_count = len(content.split())]. [add] stores a document with these
    fields computed from its content argument; a call of [get],
    [get_content], [list_all] or [count] returns the store unchanged; and
    after a [delete] every document still stored is one that was stored
    before, with the same fields. *)
Theorem stored_documents_derived_fields (store : Store.DocumentStore) :
  Store.reachable store ->
  (forall doc_id doc,
     Store._documents store !! doc_id = Some doc ->
     Store.character_count doc = PyStr.len (Store.content doc)
     /\ Store.word_count doc
        = Z.of_nat (length (PyStr.split (Store.content doc))))
  /\ (forall content_v title_v rnd now,
        exists doc,
          Store._documents
            (snd (Store.add content_v title_v rnd now store))
          !! fst (Store.add content_v title_v rnd now store) = Some doc
          /\ Store.content doc = content_v
          /\ Store.character_count doc = PyStr.len content_v
          /\ Store.word_count doc
             = Z.of_nat (length (PyStr.split content_v)))
  /\ (forall c, Store.reads_only c = true -> Store.after c store = store)
  /\ (forall c doc_id doc,
        Store.is_add c = false ->
        Store._documents (Store.after c store) !! doc_id = Some doc ->
        Store._documents store !! doc_id = Some doc).
Proof.
  intros [calls ->]. split; [|split; [|split]].
  - apply (consistent_run calls Store.init). intros doc_id doc.
    unfold Store.init. simpl. by rewrite lookup_empty.
  - intros content_v title_v rnd now. eexists. simpl.
    rewrite lookup_insert_eq. split; [reflexivity|]. simpl. auto.
  - intros c. apply after_reads_only.
  - intros c doc_id doc. apply after_keeps_documents.
Qed.

Lemma stored_documents_derived_fields_witness :
  Store.reachable Sample.store
  /\ forall doc_id doc,
       Store._documents Sample.store !! doc_id = Some doc ->
       Store.character_count doc = PyStr.len (Store.content doc)
       /\ Store.word_count doc
          = Z.of_nat (length (PyStr.split (Store.content doc))).
Proof.
  assert (Hreach : Store.reachable Sample.store).
  { exists [Store.Add "Revenue grew by ten percent." "Report" 0
              "2025-01-01T00:00:00"; Store.Get "00000000"; Store.Count;
            Store.Delete "ffffffff"].
    reflexivity. }
  split; [exact Hreach|].
  apply (stored_documents_derived_fields Sample.store Hreach).
Defined.

End DerivedFields.

(** ** Words *)

Lemma has_space_append (a b : string) :
  PyStr.has_space (a +:+ b) = PyStr.has_space a || PyStr.has_space b.
Proof.
  induction a as [|c a IH]; [reflexivity|].
  rewrite append_cons. simpl. rewrite IH. by rewrite orb_assoc.
Qed.

Lemma append_nonempty (a : string) (c : ascii) :
  a +:+ String c "" <> ""%string.
Proof. by destruct a. Qed.

(** The scan yields words that are not empty and hold no whitespace. *)
Lemma split_from_words (s word : string) :
  PyStr.has_space word = false ->
  Forall (fun w => w <> ""%string /\ PyStr.has_space w = false)
         (PyStr.split_from s word).
Proof.
  revert word. induction s as [|c s IH]; intros word Hword; simpl.
  - destruct word; [constructor|]. by repeat constructor.
  - destruct (PyStr.isspace c) eqn:Hc.
    + destruct word; [by apply IH|].
      constructor; [done|]. by apply IH.
    + apply IH. rewrite has_space_append. simpl. by rewrite Hword, Hc.
Qed.

(** [s.split()] returns words that are not empty and hold no whitespace, so
    [word_count] counts such words. *)
Lemma split_words_clean (s : string) :
  Forall (fun w => w <> ""%string /\ PyStr.has_space w = false)
         (PyStr.split s).
Proof. by apply split_from_words. Qed.

(** [split] on a few strings: runs of whitespace separate the words, and
    leading and trailing whitespace yields no empty word. *)
Example split_words :
  PyStr.split "  Revenue grew   by ten percent. " =
  ["Revenue"; "grew"; "by"; "ten"; "percent."]%string
  /\ PyStr.split "" = []
  /\ PyStr.split (PyStr.LF +:+ "a" +:+ PyStr.LF +:+ PyStr.LF +:+ "b")
     = ["a"; "b"]%string.
Proof. repeat split. Qed.

(** * Further properties *)

(** ** The store: round trips *)
Section StoreRoundTrips.

Implicit Types (store : Store.DocumentStore) (doc_id : string).

Lemma list_map_fmap {A B} (f : A -> B) (l : list A) : map f l = f <$> l.
Proof. induction l as [|x l IH]; [reflexivity|]. simpl. by rewrite IH. Qed.

(** X1. A document that was added is read back: [get] with the id [add]
    returned yields the content, the title and the time given to [add] and
    the length of the content, and [get_content] yields the content. *)
Theorem add_then_get (content_v title_v now : string) (rnd : N) store :
  let doc_id := fst (Store.add content_v title_v rnd now store) in
  let store' := snd (Store.add content_v title_v rnd now store) in
  (exists doc,
     fst (Store.get doc_id store') = Some doc
     /\ Store.content doc = content_v
     /\ Store.title doc = title_v
     /\ Store.created_at doc = now
     /\ Store.character_count doc = PyStr.len content_v)
  /\ fst (Store.get_content doc_id store') = Some content_v
  /\ fst (Store.delete doc_id store') = true.
Proof.
  intros doc_id store'. subst doc_id store'.
  unfold Store.get, Store.get_content, Store.delete, Store.add. simpl.
  rewrite lookup_insert_eq. simpl. split; [|done].
  eexists. split; [reflexivity|]. done.
Qed.

(** X2. When the id drawn is not taken, [add] makes the store one document
    larger and every document stored before is read back unchanged. *)
Theorem add_fresh_grows (content_v title_v now : string) (rnd : N) store :
  fst (Store.get (fst (Store.add content_v title_v rnd now store)) store)
  = None ->
  fst (Store.count (snd (Store.add content_v title_v rnd now store)))
  = fst (Store.count store) + 1
  /\ forall other doc,
       fst (Store.get other store) = Some doc ->
       fst (Store.get other (snd (Store.add content_v title_v rnd now store)))
       = Some doc.
Proof.
  unfold Store.get, Store.count, Store.add. simpl. intros Hfresh. split.
  - rewrite map_size_insert_None by done. lia.
  - intros other doc Hdoc. rewrite lookup_insert_ne; [done|].
    intros <-. congruence.
Qed.

Lemma add_fresh_grows_witness :
  fst (Store.count
         (snd (Store.add "A second document." "Second"
                 0xdeadbeef000000000000000000000000
                 "2025-01-02T00:00:00" Sample.store)))
  = fst (Store.count Sample.store) + 1
  /\ forall other doc,
       fst (Store.get other Sample.store) = Some doc ->
       fst (Store.get other
              (snd (Store.add "A second document." "Second"
                      0xdeadbeef000000000000000000000000
                      "2025-01-02T00:00:00" Sample.store)))
       = Some doc.
Proof.
  apply (add_fresh_grows "A second document." "Second" "2025-01-02T00:00:00"
           0xdeadbeef000000000000000000000000 Sample.store).
  reflexivity.
Defined.

(** X3. Deleting the document just added succeeds and leaves no document under
    its id; every other id keeps what it had before the two calls, and when
    the id was not taken the store is the one before the two calls. *)
Theorem add_then_delete (content_v title_v now : string) (rnd : N) store :
  let added := Store.add content_v title_v rnd now store in
  let deleted := Store.delete (fst added) (snd added) in
  fst deleted = true
  /\ fst (Store.get (fst added) (snd deleted)) = None
  /\ (forall other, other <> fst added ->
        fst (Store.get other (snd deleted)) = fst (Store.get other store))
  /\ (fst (Store.get (fst added) store) = None -> snd deleted = store).
Proof.
  intros added deleted. subst added deleted.
  unfold Store.get, Store.delete, Store.add. simpl.
  rewrite lookup_insert_eq. simpl.
  split; [done|]. split; [apply lookup_delete_eq|]. split.
  - intros other Hother.
    rewrite lookup_delete_ne by done. by rewrite lookup_insert_ne.
  - intros Hfresh. destruct store as [m]. simpl in *. f_equal.
    by apply delete_insert_id.
Qed.

(** X4. A second [delete] of the same id finds nothing: it returns [False] and
    changes nothing. *)
Theorem delete_twice store doc_id :
  let store' := snd (Store.delete doc_id store) in
  Store.delete doc_id store' = (false, store').
Proof.
  intros store'. subst store'. unfold Store.delete.
  destruct (Store._documents store !! doc_id) as [doc|] eqn:Hdoc; simpl.
  - by rewrite lookup_delete_eq.
  - by rewrite Hdoc.
Qed.

(** X5. [delete] takes one document away when the id is stored and none
    otherwise. *)
Theorem delete_count store doc_id :
  fst (Store.count (snd (Store.delete doc_id store)))
  = fst (Store.count store) - (if fst (Store.delete doc_id store) then 1 else 0).
Proof.
  unfold Store.delete, Store.count.
  destruct (Store._documents store !! doc_id) as [doc|] eqn:Hdoc; simpl.
  - assert (Hin : is_Some (Store._documents store !! doc_id)) by eauto.
    rewrite (map_size_delete_Some doc_id _ Hin).
    destruct (size (Store._documents store)) as [|n] eqn:Hn; [|simpl; lia].
    apply map_size_empty_inv in Hn. rewrite Hn, lookup_empty in Hdoc.
    discriminate.
  - lia.
Qed.

(** X6. [list_all] returns one entry per stored document: as many entries as
    [count] says, no id twice, and an entry is listed exactly when a
    document is stored under its id with the title, the counts and the time
    the entry shows. *)
Theorem list_all_entries store :
  let listing := fst (Store.list_all store) in
  Z.of_nat (length listing) = fst (Store.count store)
  /\ NoDup (Store.summary_id <$> listing)
  /\ forall s,
       s ∈ listing <->
       exists doc,
         Store._documents store !! Store.summary_id s = Some doc
         /\ Store.summary_title s = Store.title doc
         /\ Store.summary_word_count s = Store.word_count doc
         /\ Store.summary_character_count s = Store.character_count doc
         /\ Store.summary_created_at s = Store.created_at doc.
Proof.
  intros listing. subst listing. unfold Store.list_all, Store.count. simpl.
  rewrite !list_map_fmap. split; [|split].
  - by rewrite length_fmap, length_map_to_list.
  - rewrite <- list_fmap_compose.
    apply (NoDup_fst_map_to_list (Store._documents store)).
  - intros s. rewrite list_elem_of_fmap. split.
    + intros ([k doc] & -> & Hin). apply elem_of_map_to_list in Hin.
      exists doc. simpl. auto.
    + intros (doc & Hdoc & Ht & Hw & Hc & Hcr).
      exists (Store.summary_id s, doc). split.
      * destruct s. simpl in *. by subst.
      * by apply elem_of_map_to_list.
Qed.

End StoreRoundTrips.

(** ** Document ids *)
Section DocumentIds.

Lemma hex_digits_acc (k : nat) (n : N) (acc : string) :
  PyStr.hex_digits k n acc = PyStr.hex_digits k n "" +:+ acc.
Proof.
  revert n acc. induction k as [|k IH]; intros n acc; [reflexivity|].
  simpl. rewrite IH. rewrite (IH _ (String _ "")).
  rewrite append_assoc. reflexivity.
Qed.

Lemma hex_digits_S (k : nat) (n : N) :
  PyStr.hex_digits (S k) n ""
  = PyStr.hex_digits k (N.shiftr n 4) ""
    +:+ String (PyStr.hex_digit (N.land n 15)) "".
Proof. simpl. apply hex_digits_acc. Qed.

Lemma length_hex_digits (k : nat) (n : N) :
  String.length (PyStr.hex_digits k n "") = k.
Proof.
  revert n. induction k as [|k IH]; intros n; [reflexivity|].
  rewrite hex_digits_S, length_append, IH. simpl. lia.
Qed.

(** The digits of a number: those of its high part, then those of its low
    part. *)
Lemma hex_digits_split (a b : nat) (n : N) :
  PyStr.hex_digits (a + b) n ""
  = PyStr.hex_digits b (N.shiftr n (4 * N.of_nat a)) ""
    +:+ PyStr.hex_digits a n "".
Proof.
  revert n. induction a as [|a IH]; intros n.
  - simpl. by rewrite N.shiftr_0_r, append_nil_r.
  - replace (S a + b)%nat with (S (a + b)) by lia.
    rewrite !hex_digits_S, IH, append_assoc, N.shiftr_shiftr.
    do 3 f_equal. lia.
Qed.

Lemma land_15_lt (n : N) : (N.land n 15 < 16)%N.
Proof.
  change 15%N with (N.ones 4). rewrite N.land_ones.
  apply N.mod_lt. discriminate.
Qed.

Lemma digit_value_hex_digit (d : N) :
  (d < 16)%N -> Hex.digit_value (PyStr.hex_digit d) = d.
Proof.
  intros Hd. destruct d as [|p]; [reflexivity|].
  do 5 (try destruct p as [p|p|]); solve [lia | reflexivity].
Qed.

Lemma is_hex_hex_digit (d : N) (rest : string) :
  (d < 16)%N ->
  Hex.is_hex (String (PyStr.hex_digit d) rest) = Hex.is_hex rest.
Proof.
  intros Hd. destruct d as [|p]; [reflexivity|].
  do 5 (try destruct p as [p|p|]); solve [lia | reflexivity].
Qed.

Lemma is_hex_append (a b : string) :
  Hex.is_hex (a +:+ b) = Hex.is_hex a && Hex.is_hex b.
Proof.
  induction a as [|c a IH]; [reflexivity|].
  rewrite append_cons. simpl. rewrite IH. by rewrite andb_assoc.
Qed.

Lemma is_hex_hex_digits (k : nat) (n : N) :
  Hex.is_hex (PyStr.hex_digits k n "") = true.
Proof.
  revert n. induction k as [|k IH]; intros n; [reflexivity|].
  rewrite hex_digits_S, is_hex_append, IH.
  rewrite is_hex_hex_digit by apply land_15_lt. reflexivity.
Qed.

Lemma value_from_append (a b : string) (acc : N) :
  Hex.value_from (a +:+ b) acc = Hex.value_from b (Hex.value_from a acc).
Proof.
  revert acc. induction a as [|c a IH]; intros acc; [reflexivity|].
  rewrite append_cons. simpl. apply IH.
Qed.

(** Reading the digits that were written gives the number back, up to the
    number of digits. *)
Lemma value_hex_digits (k : nat) (n : N) :
  Hex.value (PyStr.hex_digits k n "") = (n mod 16 ^ N.of_nat k)%N.
Proof.
  unfold Hex.value. revert n. induction k as [|k IH]; intros n.
  - simpl. by rewrite N.mod_1_r.
  - rewrite hex_digits_S, value_from_append, IH. simpl.
    rewrite digit_value_hex_digit by apply land_15_lt.
    change 15%N with (N.ones 4). rewrite N.land_ones, N.shiftr_div_pow2.
    change (2 ^ 4)%N with 16%N.
    replace (16 ^ N.of_nat (S k))%N with (16 * 16 ^ N.of_nat k)%N
      by (rewrite Nat2N.inj_succ, N.pow_succ_r'; reflexivity).
    rewrite N.Div0.mod_mul_r. lia.
Qed.

(** The variant and version bits [uuid4] sets lie below the first four
    bytes. *)
Lemma uuid4_first_four_bytes (rnd : N) :
  N.shiftr (Store.uuid4 rnd) 96 = Hex.first_four_bytes rnd.
Proof.
  unfold Store.uuid4, Hex.first_four_bytes.
  rewrite !N.shiftr_lor, !N.shiftr_ldiff, !N.shiftr_lor, !N.shiftr_ldiff.
  change (N.shiftr (N.shiftl 49152 48) 96) with 0%N.
  change (N.shiftr (N.shiftl 32768 48) 96) with 0%N.
  change (N.shiftr (N.shiftl 61440 64) 96) with 0%N.
  change (N.shiftr (N.shiftl 4 76) 96) with 0%N.
  by rewrite !N.ldiff_0_r, !N.lor_0_r.
Qed.

Lemma first_four_bytes_lt (rnd : N) :
  (Hex.first_four_bytes rnd < 16 ^ 8)%N.
Proof.
  unfold Hex.first_four_bytes.
  rewrite N.land_ones, N.shiftr_div_pow2.
  apply N.Div0.div_lt_upper_bound.
  change (2 ^ 96 * 16 ^ 8)%N with (2 ^ 128)%N.
  apply N.mod_lt. discriminate.
Qed.

(** The id [add] assigns consists of the eight hexadecimal digits of the
    first four random bytes. *)
Lemma doc_id_digits (rnd : N) :
  PyStr.slice_to (Store.uuid_str (Store.uuid4 rnd)) 8
  = PyStr.hex_digits 8 (Hex.first_four_bytes rnd) "".
Proof.
  unfold Store.uuid_str, PyStr.hex32. cbv zeta.
  change 32%nat with (24 + 8)%nat.
  rewrite (hex_digits_split 24 8 (Store.uuid4 rnd)).
  change (4 * N.of_nat 24)%N with 96%N. rewrite uuid4_first_four_bytes.
  set (head := PyStr.hex_digits 8 (Hex.first_four_bytes rnd) "").
  set (low := PyStr.hex_digits 24 (Store.uuid4 rnd) "").
  assert (Hlen : String.length head = 8%nat) by apply length_hex_digits.
  assert (Hhead : String.substring 0 8 (head +:+ low) = head).
  { rewrite <- Hlen at 1. apply substring_whole. }
  rewrite Hhead. unfold PyStr.concat. cbn [fold_right].
  set (tail := "-" +:+ _).
  unfold PyStr.slice_to.
  assert (Hlong : PyStr.len (head +:+ tail) = 8 + PyStr.len tail).
  { rewrite len_append. unfold PyStr.len at 1. rewrite Hlen. lia. }
  pose proof (len_nonneg tail) as Htail.
  assert ((8 <? 0) = false) as -> by reflexivity.
  rewrite Hlong, Z.min_l by lia.
  change (Z.to_nat 8) with 8%nat.
  rewrite <- Hlen at 1. apply substring_whole.
Qed.

(** X7. The id [add] returns has eight characters, all of them lowercase
    hexadecimal digits, and read as a number it is the first four of the
    random bytes [uuid4] drew. *)
Theorem doc_id_format (content_v title_v now : string) (rnd : N)
    (store : Store.DocumentStore) :
  let doc_id := fst (Store.add content_v title_v rnd now store) in
  PyStr.len doc_id = 8
  /\ Hex.is_hex doc_id = true
  /\ Hex.value doc_id = Hex.first_four_bytes rnd.
Proof.
  intros doc_id. subst doc_id. unfold Store.add. cbn [fst].
  rewrite doc_id_digits. split; [|split].
  - unfold PyStr.len. by rewrite length_hex_digits.
  - apply is_hex_hex_digits.
  - rewrite value_hex_digits. apply N.mod_small, first_four_bytes_lt.
Qed.

(** X8. Two calls of [add] return the same id exactly when the random bytes
    they draw agree in the first four bytes, whatever the documents and the
    stores are. *)
Theorem doc_id_collision_iff (content1 title1 now1 content2 title2 now2 : string)
    (rnd1 rnd2 : N) (store1 store2 : Store.DocumentStore) :
  fst (Store.add content1 title1 rnd1 now1 store1)
  = fst (Store.add content2 title2 rnd2 now2 store2)
  <-> Hex.first_four_bytes rnd1 = Hex.first_four_bytes rnd2.
Proof.
  unfold Store.add. cbn [fst]. rewrite !doc_id_digits. split.
  - intros Heq. apply (f_equal Hex.value) in Heq.
    rewrite !value_hex_digits in Heq.
    rewrite !N.mod_small in Heq by apply first_four_bytes_lt. exact Heq.
  - by intros ->.
Qed.

End DocumentIds.

(** ** Context reduction and prompt size *)
Section PromptSize.

Lemma len_truncation_marker : PyStr.len QA.truncation_marker = 45.
Proof. reflexivity. Qed.

(** X9. For a limit that is not negative, the reduced document is at most the
    limit plus the 45 characters of the marker long: the marker is added on
    top of the budget, not taken from it. *)
Theorem reduce_context_bound (content : string) (limit : Z) :
  0 <= limit ->
  PyStr.len (QA.reduce_context limit content) <= limit + 45
  /\ (PyStr.len content <= limit ->
      PyStr.len (QA.reduce_context limit content) <= limit)
  /\ (PyStr.len content > limit ->
      PyStr.len (QA.reduce_context limit content) > limit).
Proof.
  intros Hlimit. unfold QA.reduce_context.
  destruct (PyStr.len content >? limit) eqn:Hgt.
  - destruct (slice_to_within content limit) as (tail & _ & Hhead); [lia|].
    rewrite len_append, Hhead, len_truncation_marker. lia.
  - lia.
Qed.

Lemma reduce_context_bound_witness :
  PyStr.len (QA.reduce_context 5 "hello world") <= 5 + 45
  /\ (PyStr.len "hello world" <= 5 ->
      PyStr.len (QA.reduce_context 5 "hello world") <= 5)
  /\ (PyStr.len "hello world" > 5 ->
      PyStr.len (QA.reduce_context 5 "hello world") > 5).
Proof.
  apply (reduce_context_bound "hello world" 5). vm_compute. discriminate.
Defined.

(** X10. Reducing a document that was already reduced changes nothing, for a
    limit that is not negative: the marker is not appended twice. *)
Theorem reduce_context_idempotent (content : string) (limit : Z) :
  0 <= limit ->
  QA.reduce_context limit (QA.reduce_context limit content)
  = QA.reduce_context limit content.
Proof.
  intros Hlimit. unfold QA.reduce_context at 2 3.
  destruct (PyStr.len content >? limit) eqn:Hgt.
  - destruct (slice_to_within content limit) as (tail & _ & Hhead); [lia|].
    set (head := PyStr.slice_to content limit) in *.
    unfold QA.reduce_context.
    assert (Hlong : (PyStr.len (head +:+ QA.truncation_marker) >? limit)
                    = true).
    { rewrite len_append, Hhead, len_truncation_marker. lia. }
    rewrite Hlong. f_equal.
    unfold PyStr.slice_to.
    assert ((limit <? 0) = false) as -> by lia.
    rewrite Z.min_l
      by (rewrite len_append, Hhead, len_truncation_marker; lia).
    assert (Hnat : Z.to_nat limit = String.length head)
      by (unfold PyStr.len in Hhead; lia).
    rewrite Hnat. apply substring_whole.
  - unfold QA.reduce_context. by rewrite Hgt.
Qed.

Lemma reduce_context_idempotent_witness :
  QA.reduce_context 5 (QA.reduce_context 5 "hello world")
  = QA.reduce_context 5 "hello world".
Proof.
  apply (reduce_context_idempotent "hello world" 5). vm_compute. discriminate.
Defined.

(** The prompt is 146 characters longer than the title, the body and the
    question together. *)
Lemma len_build_prompt (title content question : string) :
  PyStr.len (QA.build_prompt title content question)
  = PyStr.len title + PyStr.len content + PyStr.len question + 146.
Proof.
  unfold QA.build_prompt, PyStr.concat, QA.LF. cbn [fold_right].
  rewrite !len_append.
  remember (PyStr.len title) as t. remember (PyStr.len content) as c.
  remember (PyStr.len question) as q.
  unfold PyStr.len, PyStr.LF. simpl String.length. lia.
Qed.

End PromptSize.

(** ** Words and characters *)
Section WordCount.

(** Two words need a character between them. *)
Lemma split_from_length (s word : string) :
  (2 * length (PyStr.split_from s word)
   <= String.length s + match word with EmptyString => 1 | _ => 2 end)%nat.
Proof.
  revert word. induction s as [|c s IH]; intros word; simpl.
  - destruct word; simpl; lia.
  - destruct (PyStr.isspace c).
    + destruct word; simpl.
      * specialize (IH ""%string). simpl in IH. lia.
      * specialize (IH ""%string). simpl in IH. lia.
    + specialize (IH (word +:+ String c "")).
      destruct (word +:+ String c "") eqn:Hw.
      * by apply append_nonempty in Hw.
      * destruct word; lia.
Qed.

(** X12. In every store reached by calls of its methods, a document has no more
    words than characters; more precisely a document of [n] characters has
    at most [(n + 1) / 2] words, and the word count is never negative. *)
Theorem word_count_bound (store : Store.DocumentStore) (doc_id : string)
    (doc : Store.Document) :
  Store.reachable store ->
  Store._documents store !! doc_id = Some doc ->
  0 <= Store.word_count doc
  /\ 2 * Store.word_count doc <= Store.character_count doc + 1
  /\ Store.word_count doc <= Store.character_count doc.
Proof.
  intros [calls ->] Hdoc.
  assert (Hok : Store.derived_ok doc).
  { eapply (consistent_run calls Store.init); [|exact Hdoc].
    intros k d. unfold Store.init. simpl. by rewrite lookup_empty. }
  destruct Hok as [Hchars Hwords]. rewrite Hchars, Hwords.
  pose proof (split_from_length (Store.content doc) "") as Hlen.
  unfold PyStr.split, PyStr.len. simpl in Hlen. lia.
Qed.

Lemma word_count_bound_witness :
  0 <= Store.word_count Sample.doc
  /\ 2 * Store.word_count Sample.doc <= Store.character_count Sample.doc + 1
  /\ Store.word_count Sample.doc <= Store.character_count Sample.doc.
Proof.
  apply (word_count_bound Sample.store Sample.doc_id Sample.doc).
  - exists [Store.Add "Revenue grew by ten percent." "Report" 0
              "2025-01-01T00:00:00"]. reflexivity.
  - reflexivity.
Defined.

End WordCount.

(** ** The confidence levels *)
Section ConfidenceLevels.
Import Py Models.

(** X13. Looking a member up by its own value gives the member back; a lookup
    succeeds only for the three strings [high], [medium] and [low], in this
    exact spelling; and no two members share a value. *)
Theorem Confidence_round_trip :
  (forall c, Confidence_call (PStr (Confidence_value c)) = Return c)
  /\ (forall v c, Confidence_call v = Return c ->
        v = PStr "high" \/ v = PStr "medium" \/ v = PStr "low")
  /\ (forall c1 c2, Confidence_value c1 = Confidence_value c2 -> c1 = c2)
  /\ Confidence_call (PStr "HIGH") = Raise ValueError
  /\ Confidence_call (PStr "") = Raise ValueError
  /\ Confidence_call PNone = Raise ValueError.
Proof.
  split; [|split; [|split]].
  - intros c. by apply Confidence_call_Return.
  - intros v c Hv. apply Confidence_call_Return in Hv as ->.
    destruct c; auto.
  - intros c1 c2. by destruct c1, c2.
  - done.
Qed.

End ConfidenceLevels.

(** ** Request validation *)
Section RequestValidation.
Import Py.

Lemma validate_str_bounded_Return (lo hi : option Z) (v : pyval) (s : string) :
  Requests.validate_str_bounded lo hi v = Return s ->
  v = PStr s
  /\ (forall l, lo = Some l -> l <= PyStr.len s)
  /\ (forall h, hi = Some h -> PyStr.len s <= h).
Proof.
  destruct v as [| | | |s0| |]; simpl; try discriminate.
  destruct (_ && _) eqn:Hb; [|discriminate].
  intros [= <-]. apply andb_true_iff in Hb as [Hlo Hhi].
  split; [reflexivity|]. split.
  - intros l ->. lia.
  - intros h ->. lia.
Qed.

(** What an upload body that validates looks like. *)
Lemma DocumentUploadRequest_validate_Return (body : pyval)
    (request : Models.DocumentUploadRequest) :
  Requests.DocumentUploadRequest_validate body = Return request ->
  exists d,
    body = PDict d
    /\ d !! "content" = Some (PStr (Models.upload_content request))
    /\ 10 <= PyStr.len (Models.upload_content request) <= 50000
    /\ PyStr.len (Models.upload_title request) <= 200
    /\ (d !! "title" = Some (PStr (Models.upload_title request))
        \/ d !! "title" = None
           /\ Models.upload_title request = "Untitled Document"%string).
Proof.
  destruct body as [| | | | | |d]; simpl; try discriminate.
  unfold Requests.required, Requests.optional.
  destruct (d !! "content") as [vc|] eqn:Hc; [|discriminate].
  destruct (Requests.validate_str_bounded _ _ vc) as [c|] eqn:Hvc;
    [|discriminate].
  apply validate_str_bounded_Return in Hvc as (-> & Hlo & Hhi).
  specialize (Hlo 10 eq_refl). specialize (Hhi 50000 eq_refl). simpl.
  destruct (d !! "title") as [vt|] eqn:Ht.
  - destruct (Requests.validate_str_bounded _ _ vt) as [t|] eqn:Hvt;
      [|discriminate].
    apply validate_str_bounded_Return in Hvt as (-> & _ & Hmax).
    specialize (Hmax 200 eq_refl). simpl. intros [= <-]. simpl.
    exists d. auto 10.
  - simpl. intros [= <-]. simpl. exists d.
    split; [done|]. split; [done|]. split; [lia|].
    split; [by vm_compute|]. auto.
Qed.

(** What a question body that validates looks like. *)
Lemma QuestionRequest_validate_Return (body : pyval)
    (request : Models.QuestionRequest) :
  Requests.QuestionRequest_validate body = Return request ->
  exists d,
    body = PDict d
    /\ d !! "question" = Some (PStr (Models.question_text request))
    /\ 5 <= PyStr.len (Models.question_text request) <= 1000.
Proof.
  destruct body as [| | | | | |d]; simpl; try discriminate.
  unfold Requests.required.
  destruct (d !! "question") as [vq|] eqn:Hq; [|discriminate].
  destruct (Requests.validate_str_bounded _ _ vq) as [q|] eqn:Hvq;
    [|discriminate].
  apply validate_str_bounded_Return in Hvq as (-> & Hlo & Hhi).
  specialize (Hlo 5 eq_refl). specialize (Hhi 1000 eq_refl). simpl.
  intros [= <-]. simpl. exists d. split; [done|]. split; [done|]. lia.
Qed.

(** X14. An upload whose content is missing, is not a string, or has fewer than
    10 or more than 50000 characters is answered with 422 and stores
    nothing, whatever the title is and also when the store is full. *)
Theorem post_documents_rejects_content (cfg : Config.Settings)
    (d : gmap string pyval) (rnd : N) (now : string)
    (store : Store.DocumentStore) :
  match d !! "content" with
  | Some (PStr s) => PyStr.len s < 10 \/ 50000 < PyStr.len s
  | _ => True
  end ->
  Http.post_documents cfg (PDict d) rnd now store
  = (Http.Unprocessable, store)
  /\ fst (Http.serve cfg (Http.PostDocuments (PDict d) rnd now) store) = 422.
Proof.
  intros Hbad.
  assert (Hval : exists e,
            Requests.DocumentUploadRequest_validate (PDict d) = Raise e).
  { destruct (Requests.DocumentUploadRequest_validate (PDict d))
      as [request|e] eqn:Hv; [exfalso|by exists e].
    apply DocumentUploadRequest_validate_Return in Hv
      as (d' & [= <-] & Hc & Hlen & _).
    rewrite Hc in Hbad. lia. }
  destruct Hval as [e He].
  unfold Http.serve, Http.post_documents. rewrite He. done.
Qed.

Lemma post_documents_rejects_content_witness :
  Http.post_documents Config.settings
    (PDict {[ "title" := PStr "Short"; "content" := PStr "Too short" ]})
    0 "2025-01-01T00:00:00" Store.init
  = (Http.Unprocessable, Store.init)
  /\ fst (Http.serve Config.settings
            (Http.PostDocuments
               (PDict {[ "title" := PStr "Short";
                         "content" := PStr "Too short" ]})
               0 "2025-01-01T00:00:00") Store.init) = 422.
Proof.
  apply (post_documents_rejects_content Config.settings
           {[ "title" := PStr "Short"; "content" := PStr "Too short" ]}
           0 "2025-01-01T00:00:00" Store.init).
  vm_compute. left. reflexivity.
Defined.

End RequestValidation.

(** ** The service as a whole *)
Section Service.
Import Py.

Variable cfg : Config.Settings.

Implicit Types (store : Store.DocumentStore) (doc_id : string).

(** What a request does to the store: nothing, a [delete], or, for an
    upload that validates while there is room, an [add]. *)
Lemma serve_store (r : Http.request) store :
  snd (Http.serve cfg r store) = store
  \/ (exists doc_id, snd (Http.serve cfg r store)
                     = snd (Store.delete doc_id store))
  \/ (exists request rnd now,
        10 <= PyStr.len (Models.upload_content request) <= 50000
        /\ PyStr.len (Models.upload_title request) <= 200
        /\ fst (Store.count store) < Config.max_documents cfg
        /\ snd (Http.serve cfg r store)
           = snd (Store.add (Models.upload_content request)
                    (Models.upload_title request) rnd now store)).
Proof.
  destruct r as [now|body rnd now| |doc_id|doc_id|doc_id body t g]; simpl.
  - by left.
  - unfold Http.post_documents.
    destruct (Requests.DocumentUploadRequest_validate body)
      as [request|e] eqn:Hv; [|by left].
    apply DocumentUploadRequest_validate_Return in Hv
      as (d & _ & _ & Hlen & Htitle & _).
    unfold Api.upload_document, Store.count. simpl.
    destruct (Z.of_nat (size (Store._documents store))
              >=? Config.max_documents cfg) eqn:Hge; [by left|].
    right; right. exists request, rnd, now.
    unfold Store.get, Store.add. simpl. rewrite lookup_insert_eq. simpl.
    repeat split; try lia.
  - by left.
  - unfold Api.get_document, Store.get. simpl.
    destruct (Store._documents store !! doc_id); by left.
  - right; left. exists doc_id.
    unfold Api.delete_document.
    destruct (Store.delete doc_id store) as [[|] store']; reflexivity.
  - unfold Http.post_ask.
    destruct (Requests.QuestionRequest_validate body) as [request|e];
      [|by left].
    unfold Api.ask_question, Store.get. simpl.
    destruct (Store._documents store !! doc_id); [|by left].
    destruct (Api.ask_body cfg g _ request t) as [r|e]; [by left|].
    destruct (is_ValueError e); by left.
Qed.

Lemma serve_well_formed (r : Http.request) store :
  Http.well_formed store -> Http.well_formed (snd (Http.serve cfg r store)).
Proof.
  intros Hwf.
  destruct (serve_store r store)
    as [->|[(gone & ->)|(request & rnd & now & Hlen & Htitle & _ & ->)]].
  - exact Hwf.
  - intros doc_id doc. unfold Store.delete.
    destruct (Store._documents store !! gone); simpl; [|apply Hwf].
    rewrite lookup_delete_Some. intros [_ Hdoc]. by eapply Hwf.
  - intros doc_id doc. simpl. rewrite lookup_insert_Some.
    intros [[_ <-]|[_ Hdoc]]; [|by eapply Hwf].
    simpl. split; [lia|]. split; [lia|]. by split.
Qed.

Lemma run_well_formed (requests : list Http.request) store :
  Http.well_formed store -> Http.well_formed (Http.run cfg requests store).
Proof.
  revert store. induction requests as [|r requests IH]; intros store Hwf.
  - exact Hwf.
  - simpl. apply IH. by apply serve_well_formed.
Qed.

Lemma reachable_well_formed store :
  Http.reachable cfg store -> Http.well_formed store.
Proof.
  intros [requests ->]. apply run_well_formed.
  intros doc_id doc. unfold Store.init. simpl. by rewrite lookup_empty.
Qed.

(** X15. Every document the service stores has 10 to 50000 characters, whatever
    [max_document_length] is configured (the handlers never read it), a
    title of at most 200 characters and at most 25000 words. *)
Theorem served_documents_within_bounds store doc_id (doc : Store.Document) :
  Http.reachable cfg store ->
  Store._documents store !! doc_id = Some doc ->
  10 <= Store.character_count doc <= 50000
  /\ Store.character_count doc = PyStr.len (Store.content doc)
  /\ PyStr.len (Store.title doc) <= 200
  /\ 0 <= Store.word_count doc <= 25000.
Proof.
  intros Hreach Hdoc.
  destruct (reachable_well_formed store Hreach doc_id doc Hdoc)
    as (Hlen & Htitle & Hchars & Hwords).
  pose proof (split_from_length (Store.content doc) "") as Hsplit.
  unfold PyStr.split, PyStr.len in *. simpl in Hsplit. lia.
Qed.

Lemma serve_capacity (r : Http.request) store :
  fst (Store.count store) <= Z.max 0 (Config.max_documents cfg) ->
  fst (Store.count (snd (Http.serve cfg r store)))
  <= Z.max 0 (Config.max_documents cfg).
Proof.
  intros Hcap.
  destruct (serve_store r store)
    as [->|[(gone & ->)|(request & rnd & now & _ & _ & Hroom & ->)]].
  - exact Hcap.
  - unfold Store.delete, Store.count in *.
    destruct (Store._documents store !! gone) eqn:Hgone; simpl in *; [|lia].
    pose proof (map_size_delete gone (Store._documents store)) as Hsize.
    rewrite Hgone in Hsize. simpl in Hsize. lia.
  - unfold Store.count, Store.add in *. simpl in *.
    rewrite map_size_insert. destruct (_ !! _); simpl; lia.
Qed.

(** X16. Starting from the empty store the service never holds more documents
    than [max_documents] (none at all when that is negative), whatever
    requests it serves one after the other. *)
Theorem capacity_never_exceeded store :
  Http.reachable cfg store ->
  0 <= fst (Store.count store) <= Z.max 0 (Config.max_documents cfg).
Proof.
  intros [requests ->]. split; [unfold Store.count; simpl; lia|].
  assert (Hgen : forall s,
            fst (Store.count s) <= Z.max 0 (Config.max_documents cfg) ->
            fst (Store.count (Http.run cfg requests s))
            <= Z.max 0 (Config.max_documents cfg)).
  { induction requests as [|r requests IH]; intros s Hs; [exact Hs|].
    simpl. apply IH. by apply serve_capacity. }
  apply Hgen. unfold Store.count, Store.init. simpl.
  rewrite map_size_empty. lia.
Qed.

(** X17. Only uploads and deletions change the store: a health check, a listing,
    a lookup and a question leave it as it is, whatever the body of the
    question is and whatever the model returns or raises. *)
Theorem reads_keep_store (r : Http.request) store :
  Http.writes r = false -> snd (Http.serve cfg r store) = store.
Proof.
  destruct r as [now|body rnd now| |doc_id|doc_id|doc_id body t g]; simpl;
    try discriminate; intros _.
  - reflexivity.
  - reflexivity.
  - unfold Api.get_document, Store.get. simpl.
    by destruct (Store._documents store !! doc_id).
  - unfold Http.post_ask.
    destruct (Requests.QuestionRequest_validate body) as [request|e];
      [|reflexivity].
    unfold Api.ask_question, Store.get. simpl.
    destruct (Store._documents store !! doc_id); [|reflexivity].
    destruct (Api.ask_body cfg g _ request t) as [a|e]; [reflexivity|].
    by destruct (is_ValueError e).
Qed.

End Service.

Lemma served_documents_within_bounds_witness :
  10 <= Store.character_count Sample.doc <= 50000
  /\ Store.character_count Sample.doc = PyStr.len (Store.content Sample.doc)
  /\ PyStr.len (Store.title Sample.doc) <= 200
  /\ 0 <= Store.word_count Sample.doc <= 25000.
Proof.
  apply (served_documents_within_bounds Config.settings Sample.store
           Sample.doc_id Sample.doc).
  - exists [Http.PostDocuments
              (Py.PDict {[ "title" := Py.PStr "Report";
                           "content" :=
                             Py.PStr "Revenue grew by ten percent." ]})
              0 "2025-01-01T00:00:00"].
    reflexivity.
  - reflexivity.
Defined.

Lemma capacity_never_exceeded_witness :
  0 <= fst (Store.count Sample.store)
  <= Z.max 0 (Config.max_documents Sample.one_document).
Proof.
  apply (capacity_never_exceeded Sample.one_document Sample.store).
  exists [Http.PostDocuments
            (Py.PDict {[ "title" := Py.PStr "Report";
                         "content" := Py.PStr "Revenue grew by ten percent." ]})
            0 "2025-01-01T00:00:00";
          Http.PostDocuments
            (Py.PDict {[ "content" := Py.PStr "A second document." ]})
            1 "2025-01-02T00:00:00"].
  reflexivity.
Defined.

Lemma reads_keep_store_witness :
  snd (Http.serve Config.settings
         (Http.PostAsk Sample.doc_id
            (Py.PDict {[ "question" := Py.PStr "How much did revenue grow?" ]})
            12.5%float
            (Sample.replies {[ "answer" := Py.PStr "By ten percent." ]}))
         Sample.store)
  = Sample.store.
Proof.
  apply (reads_keep_store Config.settings
           (Http.PostAsk Sample.doc_id
              (Py.PDict
                 {[ "question" := Py.PStr "How much did revenue grow?" ]})
              12.5%float
              (Sample.replies {[ "answer" := Py.PStr "By ten percent." ]}))
           Sample.store).
  reflexivity.
Defined.

(** ** The routes: round trips *)
Section Routes.
Import Py.

Variable cfg : Config.Settings.

Implicit Types (store : Store.DocumentStore) (doc_id : string).

(** X18. While there is room, an upload is answered with 201 and the metadata of
    the stored document, and a lookup of the id it reports is answered with
    200 and the very content and title that were uploaded, with the same
    counts and time as the metadata. *)
Theorem upload_then_get_document (request : Models.DocumentUploadRequest)
    (rnd : N) (now : string) store :
  fst (Store.count store) < Config.max_documents cfg ->
  exists meta detail store',
    Api.upload_document cfg request rnd now store
    = (Api.Respond 201 meta, store')
    /\ Api.get_document (Models.meta_id meta) store'
       = (Api.Respond 200 detail, store')
    /\ Models.detail_id detail = Models.meta_id meta
    /\ Models.detail_content detail = Models.upload_content request
    /\ Models.detail_title detail = Models.upload_title request
    /\ Models.meta_title meta = Models.upload_title request
    /\ Models.detail_character_count detail
       = PyStr.len (Models.upload_content request)
    /\ Models.meta_character_count meta
       = Models.detail_character_count detail
    /\ Models.meta_word_count meta = Models.detail_word_count detail
    /\ Models.meta_created_at meta = now
    /\ Models.detail_created_at detail = now.
Proof.
  intros Hroom.
  unfold Api.upload_document, Api.get_document, Store.count in *.
  simpl in *.
  destruct (Z.of_nat (size (Store._documents store))
            >=? Config.max_documents cfg) eqn:Hge; [lia|].
  unfold Store.get, Store.add. simpl. rewrite lookup_insert_eq.
  do 3 eexists. split; [reflexivity|]. simpl. rewrite lookup_insert_eq.
  split; [reflexivity|]. simpl. repeat split.
Qed.

(** X19. Deleting a stored document is answered with 200 and the confirmation
    message; from then on a lookup, a question and a second deletion of the
    same id are answered with 404, and every other document is still
    there. *)
Theorem delete_document_then_404 (generate_json : Llm.client)
    (request : Models.QuestionRequest) (elapsed_ms : float) store doc_id :
  doc_id ∈ dom (Store._documents store) ->
  exists store',
    Api.delete_document doc_id store
    = (Api.Respond 200
         ("Document " +:+ doc_id +:+ " deleted successfully"), store')
    /\ Api.get_document doc_id store' = (Api.HTTPException 404, store')
    /\ Api.ask_question cfg generate_json doc_id request elapsed_ms store'
       = (Api.HTTPException 404, store')
    /\ Api.delete_document doc_id store' = (Api.HTTPException 404, store')
    /\ forall other, other <> doc_id ->
         fst (Store.get other store') = fst (Store.get other store).
Proof.
  intros [doc Hdoc]%elem_of_dom.
  unfold Api.delete_document, Api.get_document, Api.ask_question,
    Store.get, Store.delete.
  rewrite Hdoc. simpl. eexists. split.
  { unfold PyStr.concat. simpl. by rewrite append_nil_r. }
  simpl. rewrite lookup_delete_eq. simpl.
  repeat split. intros other Hother. by rewrite lookup_delete_ne.
Qed.

(** X20. A question is checked before the model is consulted. A body whose
    question is missing, is not a string, or has fewer than 5 or more than
    1000 characters is answered with 422, also for an id that is not
    stored; a valid question about an id that is not stored is answered
    with 404. In both cases the answer is the same for every model. *)
Theorem post_ask_checks_first (d : gmap string pyval) (elapsed_ms : float)
    store doc_id :
  (match d !! "question" with
   | Some (PStr s) => PyStr.len s < 5 \/ 1000 < PyStr.len s
   | _ => True
   end ->
   forall generate_json,
     Http.post_ask cfg generate_json doc_id (PDict d) elapsed_ms store
     = (Http.Unprocessable, store))
  /\ (forall s,
        d !! "question" = Some (PStr s) ->
        5 <= PyStr.len s <= 1000 ->
        doc_id ∉ dom (Store._documents store) ->
        forall generate_json,
          Http.post_ask cfg generate_json doc_id (PDict d) elapsed_ms store
          = (Http.Handled (Api.HTTPException 404), store)).
Proof.
  split.
  - intros Hbad g. unfold Http.post_ask.
    destruct (Requests.QuestionRequest_validate (PDict d))
      as [request|e] eqn:Hv; [exfalso|reflexivity].
    apply QuestionRequest_validate_Return in Hv as (d' & [= <-] & Hq & Hlen).
    rewrite Hq in Hbad. lia.
  - intros s Hq Hlen Habsent%not_elem_of_dom g.
    unfold Http.post_ask, Requests.QuestionRequest_validate,
      Requests.required, Requests.validate_str_bounded.
    rewrite Hq. simpl.
    assert (((5 <=? PyStr.len s) && (PyStr.len s <=? 1000)) = true) as ->
      by (apply andb_true_iff; lia).
    simpl. unfold Api.ask_question, Store.get. simpl. by rewrite Habsent.
Qed.

(** X21. An answer that is returned names the stored document's title, the
    question that was asked, the configured model and the time measured,
    and it is sent with 200. *)
Theorem ask_answer_echoes (generate_json : Llm.client)
    (request : Models.QuestionRequest) (elapsed_ms : float) store doc_id
    (doc : Store.Document) (code : Z) (a : Models.AnswerResponse) :
  Store._documents store !! doc_id = Some doc ->
  fst (Api.ask_question cfg generate_json doc_id request elapsed_ms store)
  = Api.Respond code a ->
  code = 200
  /\ Models.document_title a = Store.title doc
  /\ Models.question a = Models.question_text request
  /\ Models.model_used a = Config.openai_model cfg
  /\ Models.processing_time_ms a = elapsed_ms.
Proof.
  intros Hdoc. rewrite (ask_question_reply _ _ _ _ _ _ _ Hdoc). cbn [fst].
  destruct (generate_json _ _ _) as [m|e].
  - destruct (Api.interpret cfg doc request elapsed_ms m) as [r|e] eqn:Hout;
      [|discriminate].
    intros [= <- <-]. split; [reflexivity|].
    by apply interpret_Return_fields in Hout as (_ & _ & _ & _ & ? & ? & ? & ?).
  - destruct (is_ValueError e); discriminate.
Qed.

Lemma len_reduce_context_le (content : string) (limit : Z) :
  0 <= limit -> PyStr.len (QA.reduce_context limit content) <= limit + 45.
Proof.
  intros Hlimit. unfold QA.reduce_context.
  destruct (PyStr.len content >? limit) eqn:Hgt; [|lia].
  destruct (slice_to_within content limit) as (tail & _ & Hhead); [lia|].
  rewrite len_append, Hhead, len_truncation_marker. lia.
Qed.

(** X22. For a context budget that is not negative, the prompt sent for a
    document the service stores and a question that validates is at most
    the budget plus 1391 characters long, and the model is consulted at this
    prompt only: two models that agree on it get the same answer from the
    handler. *)
Theorem prompt_within_budget (body : pyval) (request : Models.QuestionRequest)
    (elapsed_ms : float) store doc_id (doc : Store.Document) :
  0 <= Config.context_max_chars cfg ->
  Http.reachable cfg store ->
  Store._documents store !! doc_id = Some doc ->
  Requests.QuestionRequest_validate body = Return request ->
  PyStr.len (Api.prompt_for cfg doc request)
  <= Config.context_max_chars cfg + 1391
  /\ forall g1 g2 : Llm.client,
       g1 (Api.prompt_for cfg doc request) QA.QA_SYSTEM_PROMPT QA.temperature
       = g2 (Api.prompt_for cfg doc request) QA.QA_SYSTEM_PROMPT
           QA.temperature ->
       Http.post_ask cfg g1 doc_id body elapsed_ms store
       = Http.post_ask cfg g2 doc_id body elapsed_ms store.
Proof.
  intros Hbudget Hreach Hdoc Hbody. split.
  - destruct (reachable_well_formed cfg store Hreach doc_id doc Hdoc)
      as (_ & Htitle & _).
    apply QuestionRequest_validate_Return in Hbody as (d & _ & _ & Hq).
    unfold Api.prompt_for. rewrite len_build_prompt.
    pose proof (len_reduce_context_le (Store.content doc)
                  (Config.context_max_chars cfg) Hbudget).
    lia.
  - intros g1 g2 Hsame. unfold Http.post_ask. rewrite Hbody.
    rewrite !(ask_question_reply _ _ _ _ _ _ _ Hdoc). by rewrite Hsame.
Qed.

End Routes.

Lemma upload_then_get_document_witness :
  fst (Store.count Store.init) < Config.max_documents Config.settings
  /\ exists meta detail store',
       Api.upload_document Config.settings
         {| Models.upload_content := "Revenue grew by ten percent.";
            Models.upload_title := "Report" |}
         0 "2025-01-01T00:00:00" Store.init
       = (Api.Respond 201 meta, store')
       /\ Api.get_document (Models.meta_id meta) store'
          = (Api.Respond 200 detail, store')
       /\ Models.detail_content detail = "Revenue grew by ten percent."%string.
Proof.
  assert (Hroom : fst (Store.count Store.init)
                  < Config.max_documents Config.settings) by reflexivity.
  split; [exact Hroom|].
  destruct (upload_then_get_document Config.settings
              {| Models.upload_content := "Revenue grew by ten percent.";
                 Models.upload_title := "Report" |}
              0 "2025-01-01T00:00:00" Store.init Hroom)
    as (meta & detail & store' & Hup & Hget & _ & Hcontent & _).
  exists meta, detail, store'. auto.
Defined.

Lemma delete_document_then_404_witness :
  Sample.doc_id ∈ dom (Store._documents Sample.store)
  /\ exists store',
       Api.delete_document Sample.doc_id Sample.store
       = (Api.Respond 200 "Document 00000000 deleted successfully"%string,
          store')
       /\ Api.get_document Sample.doc_id store'
          = (Api.HTTPException 404, store').
Proof.
  assert (Hin : Sample.doc_id ∈ dom (Store._documents Sample.store)).
  { apply elem_of_dom. exists Sample.doc. reflexivity. }
  split; [exact Hin|].
  destruct (delete_document_then_404 Config.settings (Sample.replies ∅)
              Sample.request 12.5%float Sample.store Sample.doc_id Hin)
    as (store' & Hdel & Hget & _).
  exists store'. auto.
Defined.

Lemma ask_answer_echoes_witness :
  exists a,
    fst (Api.ask_question Config.settings
           (Sample.replies {[ "answer" := Py.PStr "By ten percent." ]})
           Sample.doc_id Sample.request 12.5%float Sample.store)
    = Api.Respond 200 a
    /\ Models.document_title a = Store.title Sample.doc
    /\ Models.question a = Models.question_text Sample.request
    /\ Models.model_used a = "gpt-4o-mini"%string.
Proof.
  assert (Hreply :
    fst (Api.ask_question Config.settings
           (Sample.replies {[ "answer" := Py.PStr "By ten percent." ]})
           Sample.doc_id Sample.request 12.5%float Sample.store)
    = Api.Respond 200
        {| Models.answer := "By ten percent.";
           Models.confidence := Models.LOW;
           Models.relevant_quotes := [];
           Models.not_found := false;
           Models.document_title := "Report";
           Models.question := "How much did revenue grow?";
           Models.model_used := "gpt-4o-mini";
           Models.processing_time_ms := 12.5%float |}) by reflexivity.
  eexists. split; [exact Hreply|].
  destruct (ask_answer_echoes Config.settings
              (Sample.replies {[ "answer" := Py.PStr "By ten percent." ]})
              Sample.request 12.5%float Sample.store Sample.doc_id Sample.doc
              200 _ eq_refl Hreply) as (_ & Htitle & Hquestion & Hmodel & _).
  auto.
Defined.

Lemma prompt_within_budget_witness :
  PyStr.len (Api.prompt_for Config.settings Sample.doc Sample.request)
  <= Config.context_max_chars Config.settings + 1391.
Proof.
  apply (prompt_within_budget Config.settings
           (Py.PDict {[ "question" := Py.PStr "How much did revenue grow?" ]})
           Sample.request 12.5%float Sample.store Sample.doc_id Sample.doc).
  - vm_compute. discriminate.
  - exists [Http.PostDocuments
              (Py.PDict {[ "title" := Py.PStr "Report";
                           "content" :=
                             Py.PStr "Revenue grew by ten percent." ]})
              0 "2025-01-01T00:00:00"].
    reflexivity.
  - reflexivity.
  - reflexivity.
Defined.

(** ** More on the routes *)
Section RouteAnswers.
Import Py.

Variable cfg : Config.Settings.

Implicit Types (store : Store.DocumentStore) (doc_id : string).

(** X23. Keys other than the four the handler reads play no part in the
    interpretation of the model's mapping. *)
Theorem interpret_ignores_other_keys (doc : Store.Document)
    (request : Models.QuestionRequest) (elapsed_ms : float)
    (m : gmap string pyval) (key : string) (v : pyval) :
  key <> "answer"%string -> key <> "confidence"%string ->
  key <> "relevant_quotes"%string -> key <> "not_found"%string ->
  Api.interpret cfg doc request elapsed_ms (<[key := v]> m)
  = Api.interpret cfg doc request elapsed_ms m
  /\ Api.interpret cfg doc request elapsed_ms (base.delete key m)
     = Api.interpret cfg doc request elapsed_ms m.
Proof.
  intros Ha Hc Hq Hn. rewrite !interpret_unfold. unfold Api.field_value.
  by rewrite !lookup_insert_ne, !lookup_delete_ne by done.
Qed.

(** X24. The status codes of each route: a health check and a listing are always
    answered with 200; a lookup and a deletion with 200 or 404; an upload
    with 201, 400 or 422 and never with 500, since the document just added
    is always found; a question with 200, 404, 422 or 500. *)
Theorem serve_status_codes (r : Http.request) store :
  let code := fst (Http.serve cfg r store) in
  match r with
  | Http.GetHealth _ | Http.GetDocuments => code = 200
  | Http.GetDocument _ | Http.DeleteDocument _ => code = 200 \/ code = 404
  | Http.PostDocuments _ _ _ => code = 201 \/ code = 400 \/ code = 422
  | Http.PostAsk _ _ _ _ =>
      code = 200 \/ code = 404 \/ code = 422 \/ code = 500
  end.
Proof.
  destruct r as [now|body rnd now| |doc_id|doc_id|doc_id body t g]; simpl.
  - reflexivity.
  - unfold Http.post_documents.
    destruct (Requests.DocumentUploadRequest_validate body) as [request|e];
      [|simpl; auto].
    unfold Api.upload_document, Store.count. simpl.
    destruct (_ >=? _); simpl; [auto|].
    unfold Store.get, Store.add. simpl. rewrite lookup_insert_eq. simpl. auto.
  - reflexivity.
  - unfold Api.get_document, Store.get. simpl.
    destruct (Store._documents store !! doc_id); simpl; auto.
  - unfold Api.delete_document, Store.delete.
    destruct (Store._documents store !! doc_id); simpl; auto.
  - unfold Http.post_ask.
    destruct (Requests.QuestionRequest_validate body) as [request|e];
      [|simpl; auto].
    unfold Api.ask_question, Store.get. simpl.
    destruct (Store._documents store !! doc_id); [|simpl; auto].
    destruct (Api.ask_body cfg g _ request t) as [a|e]; [simpl; auto|].
    destruct (is_ValueError e); simpl; auto.
Qed.

(** X25. The listing and the health check agree: the listing is answered with
    one entry per stored document and a [total_count] equal to the
    [documents_stored] the health check reports, which is [count()]. *)
Theorem listing_matches_health (now : string) store :
  exists listing health,
    Api.list_documents store = (Api.Respond 200 listing, store)
    /\ Api.health_check cfg now store = (Api.Respond 200 health, store)
    /\ Models.total_count listing
       = Z.of_nat (length (Models.documents listing))
    /\ Models.total_count listing = Models.documents_stored health
    /\ Models.documents_stored health = fst (Store.count store)
    /\ NoDup (Models.meta_id <$> Models.documents listing).
Proof.
  unfold Api.list_documents, Api.health_check, Store.list_all, Store.count.
  simpl. do 2 eexists. split; [reflexivity|]. split; [reflexivity|]. simpl.
  rewrite !list_map_fmap, !length_fmap, length_map_to_list.
  split; [done|]. split; [done|]. split; [done|].
  rewrite <- !list_fmap_compose.
  apply (NoDup_fst_map_to_list (Store._documents store)).
Qed.

(** X26. An upload without a title is stored under the title
    ["Untitled Document"], the default of the request model; the default
    ["Untitled"] of [DocumentStore.add] never shows. *)
Theorem upload_default_title (d : gmap string pyval) (s : string) (rnd : N)
    (now : string) store :
  d !! "title" = None ->
  d !! "content" = Some (PStr s) ->
  10 <= PyStr.len s <= 50000 ->
  fst (Store.count store) < Config.max_documents cfg ->
  exists meta store',
    Http.post_documents cfg (PDict d) rnd now store
    = (Http.Handled (Api.Respond 201 meta), store')
    /\ Models.meta_title meta = "Untitled Document"%string
    /\ Store.title <$> Store._documents store' !! Models.meta_id meta
       = Some "Untitled Document"%string
    /\ Store.content <$> Store._documents store' !! Models.meta_id meta
       = Some s.
Proof.
  intros Htitle Hcontent Hlen Hroom.
  unfold Http.post_documents, Requests.DocumentUploadRequest_validate,
    Requests.required, Requests.optional, Requests.validate_str_bounded.
  rewrite Htitle, Hcontent. simpl.
  assert (((10 <=? PyStr.len s) && (PyStr.len s <=? 50000)) = true) as ->
    by (apply andb_true_iff; lia).
  simpl. unfold Api.upload_document, Store.count in *. simpl in *.
  destruct (Z.of_nat (size (Store._documents store))
            >=? Config.max_documents cfg) eqn:Hge; [lia|].
  unfold Store.get, Store.add. simpl. rewrite lookup_insert_eq.
  do 2 eexists. split; [reflexivity|]. simpl. rewrite lookup_insert_eq.
  done.
Qed.

End RouteAnswers.

Lemma interpret_ignores_other_keys_witness :
  Api.interpret Config.settings Sample.doc Sample.request 12.5%float
    (<[ "reasoning" := Py.PStr "Stated in the text." ]>
       {[ "answer" := Py.PStr "By ten percent." ]})
  = Api.interpret Config.settings Sample.doc Sample.request 12.5%float
      {[ "answer" := Py.PStr "By ten percent." ]}
  /\ Api.interpret Config.settings Sample.doc Sample.request 12.5%float
       (base.delete "reasoning" {[ "answer" := Py.PStr "By ten percent." ]})
     = Api.interpret Config.settings Sample.doc Sample.request 12.5%float
         {[ "answer" := Py.PStr "By ten percent." ]}.
Proof.
  apply (interpret_ignores_other_keys Config.settings Sample.doc
           Sample.request 12.5%float
           {[ "answer" := Py.PStr "By ten percent." ]} "reasoning"
           (Py.PStr "Stated in the text.")); discriminate.
Defined.

Lemma upload_default_title_witness :
  exists meta store',
    Http.post_documents Config.settings
      (Py.PDict {[ "content" := Py.PStr "Revenue grew by ten percent." ]})
      0 "2025-01-01T00:00:00" Store.init
    = (Http.Handled (Api.Respond 201 meta), store')
    /\ Models.meta_title meta = "Untitled Document"%string
    /\ Store.title <$> Store._documents store' !! Models.meta_id meta
       = Some "Untitled Document"%string
    /\ Store.content <$> Store._documents store' !! Models.meta_id meta
       = Some "Revenue grew by ten percent."%string.
Proof.
  apply (upload_default_title Config.settings
           {[ "content" := Py.PStr "Revenue grew by ten percent." ]}
           "Revenue grew by ten percent." 0 "2025-01-01T00:00:00" Store.init).
  - reflexivity.
  - reflexivity.
  - vm_compute. split; discriminate.
  - reflexivity.
Defined.
